(** * Matchify: session state and caching discipline of [main.py]

    A shallow embedding of the glue code of [main.py]: the memoised PDF text
    extraction, the analysis request and the chat assistant with its
    conversation log.  The third-party collaborators (the digest, the PDF
    parser, the generative model, the key derivation of the memoising
    decorator) are parameters of the development; what is modelled is the
    code that calls them.

    Python code runs in a state ([World]) and either returns or raises; the
    state records, next to the decorator's store and the conversation slot of
    the session, every element displayed and every invocation of the parser
    and of the model, so that "is displayed" and "is invoked" are statements
    about the state. *)

From Stdlib Require Import Ascii String List Lia.
From stdpp Require Import base option list strings gmap.

Local Open Scope string_scope.
Local Open Scope list_scope.

(** ** Python values *)

(** ["\n"] *)
Definition nl : string := String "010"%char EmptyString.

(** Truth value of a [str]: the empty string is falsy. *)
Definition truthy (s : string) : bool :=
  match s with
  | EmptyString => false
  | String _ _ => true
  end.

(** [sep.join(parts)] *)
Fixpoint str_join (sep : string) (parts : list string) : string :=
  match parts with
  | [] => ""
  | [x] => x
  | x :: rest => x +:+ sep +:+ str_join sep rest
  end.

(** The outcome of evaluating a Python expression: a value, or a raised
    instance of [Exception] carrying its [str()]. *)
Inductive outcome (A : Type) : Type :=
| Returned (a : A)
| Raised (e : string).
Arguments Returned {A} a.
Arguments Raised {A} e.

(** ** Data *)

(** An uploaded file as Streamlit hands it over: its name and its bytes
    ([uploaded_file.getvalue()]). *)
Record UploadedFile : Type := mkUploadedFile {
  name : string;
  getvalue : list Byte.byte
}.

(** One conversation turn: the dict [{"role": ..., "message": ...}]. *)
Record entry : Type := mkEntry {
  role : string;
  message : string
}.

(** What the script puts on the page. *)
Inductive element : Type :=
| st_error (body : string)
| st_text_area (label value : string)
| st_spinner (text : string)
| st_markdown (body : string).

(** What [extract_text_from_pdf] returns: [(text, file_hash)] or
    [(None, None)]. *)
Definition extracted : Type := (option string * option string)%type.

(** The state the script runs in.  [cache] is the store behind
    [@st.cache_data] on [extract_text_from_pdf]: per key, the returned value
    and the elements the call displayed.  [conversation_history] is the
    [st.session_state] slot, absent until the first chat.  [screen] lists the
    displayed elements; [reader_calls] and [model_calls] log every invocation
    of [PdfReader] and of [model.generate_content]. *)
Record World : Type := mkWorld {
  cache : gmap string (extracted * list element);
  conversation_history : option (list entry);
  screen : list element;
  reader_calls : list (list Byte.byte);
  model_calls : list string
}.

(** A fresh session: nothing cached, no conversation, nothing displayed. *)
Definition fresh : World := mkWorld ∅ None [] [] [].

Definition set_cache (c : gmap string (extracted * list element)) (w : World) : World :=
  mkWorld c (conversation_history w) (screen w) (reader_calls w) (model_calls w).

Definition set_history (h : option (list entry)) (w : World) : World :=
  mkWorld (cache w) h (screen w) (reader_calls w) (model_calls w).

Definition add_elements (els : list element) (w : World) : World :=
  mkWorld (cache w) (conversation_history w) (screen w ++ els) (reader_calls w) (model_calls w).

Definition log_reader_call (content : list Byte.byte) (w : World) : World :=
  mkWorld (cache w) (conversation_history w) (screen w) (reader_calls w ++ [content]) (model_calls w).

Definition log_model_call (prompt : string) (w : World) : World :=
  mkWorld (cache w) (conversation_history w) (screen w) (reader_calls w) (model_calls w ++ [prompt]).

(** The conversation log as a sequence: empty while the slot is absent. *)
Definition history (w : World) : list entry := default [] (conversation_history w).

(** ** Computations: state passing with exceptions *)

Definition M (A : Type) : Type := World -> outcome A * World.

Definition ret {A : Type} (a : A) : M A := fun w => (Returned a, w).

Definition bind {A B : Type} (m : M A) (k : A -> M B) : M B :=
  fun w => match m w with
           | (Returned a, w') => k a w'
           | (Raised e, w') => (Raised e, w')
           end.

Declare Scope py_scope.
Delimit Scope py_scope with py.
Notation "x <- m ;; k" := (bind m (fun x => k))
  (at level 100, m at next level, right associativity) : py_scope.
Notation "m ;; k" := (bind m (fun _ => k))
  (at level 100, right associativity) : py_scope.
Local Open Scope py_scope.

(** A collaborator's outcome, in the current state. *)
Definition lift {A : Type} (o : outcome A) : M A := fun w => (o, w).

(** [try: body / except Exception as e: handler e].  State changes made by
    [body] before it raised stay. *)
Definition try_except {A : Type} (body : M A) (handler : string -> M A) : M A :=
  fun w => match body w with
           | (Returned a, w') => (Returned a, w')
           | (Raised e, w') => handler e w'
           end.

(** Displaying one element. *)
Definition show (el : element) : M unit := fun w => (Returned tt, add_elements [el] w).

(** A list comprehension [[f x for x in xs]]: the first raise ends it. *)
Fixpoint comprehension {A B : Type} (f : A -> M B) (xs : list A) : M (list B) :=
  match xs with
  | [] => ret []
  | x :: rest => y <- f x ;; ys <- comprehension f rest ;; ret (y :: ys)
  end.

(** ** Concrete collaborators, used to run the model on examples *)

Module Sample.

(** A page is its text; a page whose text is ["!"] cannot be decoded. *)
Definition page : Type := string.

Definition md5_hexdigest (content : list Byte.byte) : outcome string :=
  Returned ("md5:" +:+ string_of_list_byte content).

(** Parses contents that start with [%]: one page, holding the rest. *)
Definition PdfReader (content : list Byte.byte) : outcome (list page) :=
  match string_of_list_byte content with
  | String "%"%char rest => Returned [rest]
  | _ => Raised "EOF marker not found"
  end.

Definition page_extract_text (p : page) : outcome string :=
  if String.eqb p "!" then Raised "cannot decode page" else Returned p.

(** The decorator's key for an uploaded file.  Streamlit digests the file's
    name, its stream position (0 for a file just uploaded) and its bytes;
    this stand-in keeps them apart without collisions: the length of the
    name in strokes, the name, the bytes. *)
Fixpoint strokes (s : string) : string :=
  match s with
  | EmptyString => ":"
  | String _ rest => String "|"%char (strokes rest)
  end.

Definition cache_key (f : UploadedFile) : string :=
  strokes (name f) +:+ name f +:+ string_of_list_byte (getvalue f).

(** A model that answers, and one whose calls error. *)
Definition generate_content (earlier : list string) (prompt : string) : outcome string :=
  Returned "Hello!".

Definition generate_content_down (earlier : list string) (prompt : string) : outcome string :=
  Raised "429 quota exceeded".

Definition str_strip (s : string) : string := s.

Definition resume_a : UploadedFile := mkUploadedFile "a.pdf" (list_byte_of_string "%Ada").
Definition resume_b : UploadedFile := mkUploadedFile "b.pdf" (list_byte_of_string "%Ada").
Definition resume_c : UploadedFile := mkUploadedFile "c.pdf" (list_byte_of_string "%Bob").
Definition broken : UploadedFile := mkUploadedFile "x.pdf" (list_byte_of_string "oops").
Definition blank : UploadedFile := mkUploadedFile "e.pdf" (list_byte_of_string "%").

End Sample.

(** ** The program *)

Section Matchify.

(** The collaborators.  [md5_hexdigest] is [hashlib.md5(...).hexdigest()]
    (it raises on builds that disable MD5); [PdfReader] parses the bytes into
    pages and [page_extract_text] is [page.extract_text()];
    [generate_content] stands for [model.generate_content([prompt],
    stream=True)] followed by [response.resolve()] and [response.text], its
    first argument being the prompts sent before, so that the remote model
    may answer the same prompt differently from one call to the next;
    [cache_key] is the key [st.cache_data] derives from the argument of the
    decorated function; [str_strip] is [str.strip()]. *)
Variable page : Type.
Variable md5_hexdigest : list Byte.byte -> outcome string.
Variable PdfReader : list Byte.byte -> outcome (list page).
Variable page_extract_text : page -> outcome string.
Variable cache_key : UploadedFile -> string.
Variable generate_content : list string -> string -> outcome string.
Variable str_strip : string -> string.

(** [hash_pdf], lines 18-21. *)
Definition hash_pdf (uploaded_file : UploadedFile) : M string :=
  md5_hash <- lift (md5_hexdigest (getvalue uploaded_file)) ;;
  ret md5_hash.

(** [PdfReader(uploaded_file)]: the invocation is logged, then the parser
    answers. *)
Definition call_PdfReader (uploaded_file : UploadedFile) : M (list page) :=
  fun w => (PdfReader (getvalue uploaded_file),
            log_reader_call (getvalue uploaded_file) w).

(** [page.extract_text()] *)
Definition extract_text (p : page) : M string := lift (page_extract_text p).

(** The [try] block of [extract_text_from_pdf], lines 26-31. *)
Definition extract_text_from_pdf_try (uploaded_file : UploadedFile) : M extracted :=
  file_hash <- hash_pdf uploaded_file ;;
  pdf_reader <- call_PdfReader uploaded_file ;;
  text_lines <- comprehension extract_text pdf_reader ;;
  ret (Some (str_join "" text_lines), Some file_hash).

(** The body of [extract_text_from_pdf], lines 24-34, without its decorator
    (Python's [extract_text_from_pdf.__wrapped__]). *)
Definition extract_text_from_pdf_wrapped (uploaded_file : UploadedFile) : M extracted :=
  try_except
    (extract_text_from_pdf_try uploaded_file)
    (fun e =>
       show (st_error ("Error reading PDF: " +:+ e)) ;;
       ret (None, None)).

(** [@st.cache_data], line 23.  A call whose key is in the store returns the
    stored value and replays the elements stored with it; the function is not
    run.  Otherwise the function runs; when it returns, its value and the
    elements it displayed are stored under the key; when it raises, nothing
    is stored. *)
Definition cache_data (func : UploadedFile -> M extracted)
    (uploaded_file : UploadedFile) : M extracted :=
  fun w =>
    match cache w !! cache_key uploaded_file with
    | Some (value, shown) => (Returned value, add_elements shown w)
    | None =>
        match func uploaded_file w with
        | (Returned value, w') =>
            (Returned value,
             set_cache (<[cache_key uploaded_file :=
                            (value, drop (length (screen w)) (screen w'))]> (cache w')) w')
        | (Raised e, w') => (Raised e, w')
        end
    end.

(** [extract_text_from_pdf] as callers see it, lines 23-34. *)
Definition extract_text_from_pdf : UploadedFile -> M extracted :=
  cache_data extract_text_from_pdf_wrapped.

(** The loop of [generate_text], lines 44-49, threading
    [combined_pdf_text] and [file_hashes]. *)
Fixpoint for_uploaded_files (uploaded_files : list (option UploadedFile))
    (combined_pdf_text : string) (file_hashes : list (option string))
    : M (string * list (option string)) :=
  match uploaded_files with
  | [] => ret (combined_pdf_text, file_hashes)
  | None :: rest => for_uploaded_files rest combined_pdf_text file_hashes
  | Some uploaded_file :: rest =>
      r <- extract_text_from_pdf uploaded_file ;;
      match r with
      | (Some pdf_text, file_hash) =>
          if truthy pdf_text
          then for_uploaded_files rest
                 (combined_pdf_text +:+ pdf_text +:+ nl +:+ nl)
                 (file_hashes ++ [file_hash])
          else for_uploaded_files rest combined_pdf_text file_hashes
      | (None, _) => for_uploaded_files rest combined_pdf_text file_hashes
      end
  end.

(** The prompt of lines 56-62. *)
Definition analysis_prompt (job_description combined_pdf_text : string) : string :=
  "Assess candidate fit for the job description. Consider substitutes for skills, experience, match percentage in tabular form:"
    +:+ nl +:+ nl
    +:+ "Skills: Match or equivalent technologies." +:+ nl
    +:+ "Experience: Relevance to key responsibilities." +:+ nl
    +:+ "Fit: Suitability based on experience and skills." +:+ nl +:+ nl
    +:+ "Job Description:" +:+ nl +:+ job_description +:+ nl +:+ nl
    +:+ "Resume Content:" +:+ nl +:+ combined_pdf_text.

(** The model call: the prompt is logged, then the model answers or the call
    raises. *)
Definition call_model (prompt : string) : M string :=
  fun w => (generate_content (model_calls w) prompt, log_model_call prompt w).

(** [generate_text], lines 39-67. *)
Definition generate_text (uploaded_files : list (option UploadedFile))
    (job_description : string) : M unit :=
  acc <- for_uploaded_files uploaded_files "" [] ;;
  let combined_pdf_text := fst acc in
  if truthy combined_pdf_text then
    show (st_text_area "Extracted Text" combined_pdf_text) ;;
    let prompt := analysis_prompt job_description combined_pdf_text in
    show (st_spinner "Generating...") ;;
    response_text <- call_model prompt ;;
    show (st_markdown response_text)
  else ret tt.

(** The handler of the Analyze button, lines 127-131. *)
Definition analyze_button (clicked : bool) (uploaded_files : list (option UploadedFile))
    (job_description : string) : M unit :=
  if clicked then
    match uploaded_files with
    | _ :: _ => generate_text uploaded_files job_description
    | [] => show (st_error "Please upload at least one PDF file.")
    end
  else ret tt.

(** [f"{entry['role']}: {entry['message']}"] *)
Definition render_entry (e : entry) : string := role e +:+ ": " +:+ message e.

(** The conversation context of line 79. *)
Definition conversation_context (conversation_history : list entry) : string :=
  str_join nl (map render_entry conversation_history).

(** [st.session_state.conversation_history.append(turn)], the slot being
    initialised by lines 72-73 before the first append. *)
Definition init_history : M unit :=
  fun w => match conversation_history w with
           | Some _ => (Returned tt, w)
           | None => (Returned tt, set_history (Some []) w)
           end.

Definition append_turn (turn : entry) : M unit :=
  fun w => (Returned tt, set_history (Some (history w ++ [turn])) w).

(** Line 79: the context is rendered from the log as it stands; the log is
    only read. *)
Definition build_context : M string :=
  fun w => (Returned (conversation_context (history w)), w).

(** The fallback of line 93. *)
Definition fallback_message : string := "Sorry, I couldn't process that request.".

(** [chatbot], lines 70-93. *)
Definition chatbot (user_input : string) : M string :=
  init_history ;;
  append_turn (mkEntry "User" user_input) ;;
  context <- build_context ;;
  let prompt := context +:+ nl +:+ "Bot:" in
  try_except
    (show (st_spinner "Your virtual assistant is thinking...") ;;
     response_text <- call_model prompt ;;
     let bot_response := str_strip response_text in
     append_turn (mkEntry "Bot" bot_response) ;;
     ret bot_response)
    (fun e =>
       show (st_error ("Error with chatbot: " +:+ e)) ;;
       ret fallback_message).

(** ** What a file extracts to

    The [try] block reads nothing of the state, so its outcome is a function
    of the file; it is read off a run in the fresh state
    ([extraction_any_state] below shows every state gives the same). *)

(** The outcome of the [try] block on a file: the pair of text and digest,
    or the exception one of the collaborators raised. *)
Definition extraction (f : UploadedFile) : outcome extracted :=
  fst (extract_text_from_pdf_try f fresh).

(** What the undecorated function returns for a file. *)
Definition value_of (f : UploadedFile) : extracted :=
  match extraction f with
  | Returned v => v
  | Raised _ => (None, None)
  end.

(** What the undecorated function displays for a file. *)
Definition shown_of (f : UploadedFile) : list element :=
  match extraction f with
  | Returned _ => []
  | Raised e => [st_error ("Error reading PDF: " +:+ e)]
  end.

(** The parser invocations of one run of the undecorated function: none when
    the digest already raised. *)
Definition reads_of (f : UploadedFile) : list (list Byte.byte) :=
  match md5_hexdigest (getvalue f) with
  | Returned _ => [getvalue f]
  | Raised _ => []
  end.

(** The text a file contributes to [combined_pdf_text]: its extracted text
    when that is a non-empty string. *)
Definition text_of (uploaded_file : option UploadedFile) : option string :=
  match uploaded_file with
  | Some f =>
      match fst (value_of f) with
      | Some t => if truthy t then Some t else None
      | None => None
      end
  | None => None
  end.

(** The contributed texts of an upload list, in upload order. *)
Definition extracted_texts (uploaded_files : list (option UploadedFile)) : list string :=
  omap text_of uploaded_files.

(** Each text followed by a blank line, as line 48 accumulates them. *)
Fixpoint paragraphs (texts : list string) : string :=
  match texts with
  | [] => ""
  | t :: rest => t +:+ nl +:+ nl +:+ paragraphs rest
  end.

(** The error reports of an upload list, in upload order. *)
Definition error_reports (uploaded_files : list (option UploadedFile)) : list element :=
  flat_map (fun uf => match uf with Some f => shown_of f | None => [] end) uploaded_files.

(** What an analysis request displays after the error reports of its files:
    nothing when no file contributed a text; otherwise the text area, the
    spinner, and the answer when the model gave one. *)
Definition analysis_output (earlier : list string) (job_description : string)
    (texts : list string) : list element :=
  match texts with
  | [] => []
  | _ :: _ =>
      st_text_area "Extracted Text" (paragraphs texts)
      :: st_spinner "Generating..."
      :: match generate_content earlier
                 (analysis_prompt job_description (paragraphs texts)) with
         | Returned answer => [st_markdown answer]
         | Raised _ => []
         end
  end.

(** The prompts an analysis request sends: one when some file contributed a
    text, none otherwise. *)
Definition analysis_calls (job_description : string) (texts : list string) : list string :=
  match texts with
  | [] => []
  | _ :: _ => [analysis_prompt job_description (paragraphs texts)]
  end.

(** How an analysis request ends: it returns, unless the model was called
    and its call raised (lines 65-67 stand outside any [try]). *)
Definition analysis_result (earlier : list string) (job_description : string)
    (texts : list string) : outcome unit :=
  match texts with
  | [] => Returned tt
  | _ :: _ =>
      match generate_content earlier
              (analysis_prompt job_description (paragraphs texts)) with
      | Returned _ => Returned tt
      | Raised e => Raised e
      end
  end.

(** ** States of the store

    Every stored entry is what the undecorated function returns and displays
    for the file that is looked up. *)
Definition cache_sound (w : World) : Prop :=
  forall f v shown,
    cache w !! cache_key f = Some (v, shown) -> v = value_of f /\ shown = shown_of f.

(** The key tells file contents apart (a digest without collisions). *)
Definition key_faithful : Prop :=
  forall f g, cache_key f = cache_key g -> getvalue f = getvalue g.

(** ** Sessions: the user's actions, from a fresh state *)

Inductive step : World -> World -> Prop :=
| step_chat (user_input : string) (w : World) :
    step w (snd (chatbot user_input w))
| step_analyze (clicked : bool) (uploaded_files : list (option UploadedFile))
    (job_description : string) (w : World) :
    step w (snd (analyze_button clicked uploaded_files job_description w)).

Inductive reachable : World -> Prop :=
| reachable_fresh : reachable fresh
| reachable_step (w w' : World) : reachable w -> step w w' -> reachable w'.

(** Every Bot turn of a log has a User turn before it. *)
Definition bots_preceded (log : list entry) : Prop :=
  forall i e, log !! i = Some e -> role e = "Bot" ->
    exists j e', j < i /\ log !! j = Some e' /\ role e' = "User".

(** ** The assistant page, lines 137-154 *)

(** The double quote of the HTML attributes. *)
Definition dq : string := String "034"%char EmptyString.

(** The bubble of a User turn, lines 150-151. *)
Definition user_bubble (msg : string) : string :=
  "<div style=" +:+ dq
    +:+ "background-color: #D1E7FD; border-radius: 10px; padding: 10px; margin-bottom: 5px;"
    +:+ dq +:+ ">"
    +:+ "<b>User:</b> " +:+ msg +:+ "</div>".

(** The bubble of any other turn, lines 153-154. *)
Definition bot_bubble (msg : string) : string :=
  "<div style=" +:+ dq
    +:+ "background-color: #E2F8D7; border-radius: 10px; padding: 10px; margin-bottom: 5px;"
    +:+ dq +:+ ">"
    +:+ "<b>Bot:</b> " +:+ msg +:+ "</div>".

(** One pass of the loop of lines 148-154: the turn as a markdown element
    (the flag [unsafe_allow_html] only tells the renderer to let the markup
    through). *)
Definition history_bubble (e : entry) : element :=
  st_markdown (if String.eqb (role e) "User"
               then user_bubble (message e)
               else bot_bubble (message e)).

(** Lines 142-154: the heading and the bubbles, when the slot exists.
    [st.write] of a string is a markdown element. *)
Definition show_history : M unit :=
  fun w => match conversation_history w with
           | Some log =>
               (Returned tt,
                add_elements (st_markdown "### Conversation History"
                              :: map history_bubble log) w)
           | None => (Returned tt, w)
           end.

(** Lines 137-154, [user_input] being the value of the text input.
    [st.write("Chatbot:", bot_response)] joins its two strings with a space
    into one markdown element. *)
Definition virtual_assistant_page (user_input : string) : M unit :=
  (if truthy user_input then
     bot_response <- chatbot user_input ;;
     show (st_markdown ("Chatbot: " +:+ bot_response))
   else ret tt) ;;
  show_history.

(** A script run of either page. *)
Inductive page_run : World -> World -> Prop :=
| run_assistant (user_input : string) (w : World) :
    page_run w (snd (virtual_assistant_page user_input w))
| run_analysis (clicked : bool) (uploaded_files : list (option UploadedFile))
    (job_description : string) (w : World) :
    page_run w (snd (analyze_button clicked uploaded_files job_description w)).

(** The states a session passes through, one script run after the other. *)
Inductive visited : World -> Prop :=
| visited_fresh : visited fresh
| visited_run (w w' : World) : visited w -> page_run w w' -> visited w'.

(** The shape of a log: turns are User or Bot turns, and a Bot turn stands
    right after a User turn. *)
Definition turn_shape (log : list entry) : Prop :=
  forall i e, log !! i = Some e ->
    role e = "User"
    \/ (role e = "Bot"
        /\ exists j e', i = S j /\ log !! j = Some e' /\ role e' = "User").

(** The text the store holds for an uploaded file, when it counts for
    [combined_pdf_text]. *)
Definition stored_text (c : gmap string (extracted * list element))
    (uploaded_file : option UploadedFile) : option string :=
  match uploaded_file with
  | Some f =>
      match c !! cache_key f with
      | Some ((Some t, _), _) => if truthy t then Some t else None
      | _ => None
      end
  | None => None
  end.

(** The prompts of a request whose loop ended with [combined]: line 52. *)
Definition prompts_for (job_description combined : string) : list string :=
  if truthy combined then [analysis_prompt job_description combined] else [].

(** ** The try block is a function of the file *)

Lemma comprehension_extract_text_run (pages : list page) (w : World) :
  comprehension extract_text pages w
  = (fst (comprehension extract_text pages fresh), w).
Proof.
  revert w. induction pages as [|p pages IH]; intros w; [reflexivity|].
  cbn [comprehension]. unfold bind, extract_text at 1 3, lift.
  destruct (page_extract_text p) as [t|e]; [|reflexivity].
  rewrite (IH w), (IH fresh). cbn [fst].
  destruct (fst _); reflexivity.
Qed.

Lemma extract_text_from_pdf_try_run (f : UploadedFile) (w : World) :
  extract_text_from_pdf_try f w
  = (extraction f,
     mkWorld (cache w) (conversation_history w) (screen w)
       (reader_calls w ++ reads_of f) (model_calls w)).
Proof.
  unfold extraction, reads_of, extract_text_from_pdf_try, hash_pdf, call_PdfReader.
  unfold bind, lift, ret.
  destruct (md5_hexdigest (getvalue f)) as [h|e]; cbn [fst].
  - destruct (PdfReader (getvalue f)) as [pages|e]; cbn [fst]; [|reflexivity].
    rewrite (comprehension_extract_text_run pages (log_reader_call (getvalue f) w)).
    rewrite (comprehension_extract_text_run pages (log_reader_call (getvalue f) fresh)).
    destruct (fst _); reflexivity.
  - destruct w; cbn. rewrite app_nil_r. reflexivity.
Qed.

Lemma extraction_any_state (f : UploadedFile) (w : World) :
  fst (extract_text_from_pdf_try f w) = extraction f.
Proof. rewrite extract_text_from_pdf_try_run. reflexivity. Qed.

Lemma extraction_by_content (f g : UploadedFile) :
  getvalue f = getvalue g -> extraction f = extraction g.
Proof.
  intros E. unfold extraction, extract_text_from_pdf_try, hash_pdf, call_PdfReader.
  rewrite E. reflexivity.
Qed.

Lemma value_of_by_content (f g : UploadedFile) :
  getvalue f = getvalue g -> value_of f = value_of g.
Proof. intros E. unfold value_of. rewrite (extraction_by_content f g E). reflexivity. Qed.

Lemma shown_of_by_content (f g : UploadedFile) :
  getvalue f = getvalue g -> shown_of f = shown_of g.
Proof. intros E. unfold shown_of. rewrite (extraction_by_content f g E). reflexivity. Qed.

(** One run of the undecorated function: it returns, whatever happened in
    the [try] block. *)
Lemma extract_text_from_pdf_wrapped_run (f : UploadedFile) (w : World) :
  extract_text_from_pdf_wrapped f w
  = (Returned (value_of f),
     mkWorld (cache w) (conversation_history w) (screen w ++ shown_of f)
       (reader_calls w ++ reads_of f) (model_calls w)).
Proof.
  unfold extract_text_from_pdf_wrapped, try_except.
  rewrite extract_text_from_pdf_try_run. unfold value_of, shown_of.
  destruct (extraction f) as [v|e].
  - cbn. rewrite app_nil_r. reflexivity.
  - reflexivity.
Qed.

(** ** The decorated function *)

Lemma extract_hit (f : UploadedFile) (w : World) (v : extracted) (shown : list element) :
  cache w !! cache_key f = Some (v, shown) ->
  extract_text_from_pdf f w = (Returned v, add_elements shown w).
Proof.
  intros H. unfold extract_text_from_pdf, cache_data. rewrite H. reflexivity.
Qed.

Lemma extract_miss (f : UploadedFile) (w : World) :
  cache w !! cache_key f = None ->
  extract_text_from_pdf f w
  = (Returned (value_of f),
     mkWorld (<[cache_key f := (value_of f, shown_of f)]> (cache w))
       (conversation_history w) (screen w ++ shown_of f)
       (reader_calls w ++ reads_of f) (model_calls w)).
Proof.
  intros H. unfold extract_text_from_pdf, cache_data. rewrite H.
  rewrite extract_text_from_pdf_wrapped_run. cbn.
  rewrite drop_app_length. reflexivity.
Qed.

(** Every call of the decorated function returns; the conversation log and
    the model are not touched. *)
Lemma extract_frame (f : UploadedFile) (w : World) :
  exists v w',
    extract_text_from_pdf f w = (Returned v, w')
    /\ conversation_history w' = conversation_history w
    /\ model_calls w' = model_calls w.
Proof.
  destruct (cache w !! cache_key f) as [[v shown]|] eqn:E.
  - exists v, (add_elements shown w). rewrite (extract_hit f w v shown E). auto.
  - eexists _, _. rewrite (extract_miss f w E). auto.
Qed.

(** With a faithful key, a call in a sound state gives what the undecorated
    function gives for this very file, and leaves the state sound. *)
Lemma extract_sound (f : UploadedFile) (w : World) :
  key_faithful -> cache_sound w ->
  exists w',
    extract_text_from_pdf f w = (Returned (value_of f), w')
    /\ cache_sound w'
    /\ conversation_history w' = conversation_history w
    /\ screen w' = screen w ++ shown_of f
    /\ model_calls w' = model_calls w.
Proof.
  intros Hkey Hw.
  destruct (cache w !! cache_key f) as [[v shown]|] eqn:E.
  - destruct (Hw f v shown E) as [-> ->].
    exists (add_elements (shown_of f) w). rewrite (extract_hit f w _ _ E).
    split; [reflexivity|]. split; [exact Hw|]. auto.
  - eexists. rewrite (extract_miss f w E). split; [reflexivity|].
    split; [|auto].
    intros g v shown. cbn [cache].
    destruct (decide (cache_key f = cache_key g)) as [Ek|Ek].
    + rewrite Ek, lookup_insert_eq. intros [= <- <-].
      split; [apply value_of_by_content | apply shown_of_by_content]; auto.
    + rewrite lookup_insert_ne by exact Ek. apply Hw.
Qed.

(** ** Strings *)

Lemma str_app_cons (x : ascii) (a b : string) : String x a +:+ b = String x (a +:+ b).
Proof. reflexivity. Qed.

Lemma str_app_assoc (a b c : string) : (a +:+ b) +:+ c = a +:+ b +:+ c.
Proof.
  induction a as [|x a IH]; [reflexivity|].
  rewrite !str_app_cons, IH. reflexivity.
Qed.

Lemma str_app_nil_r (a : string) : a +:+ "" = a.
Proof.
  induction a as [|x a IH]; [reflexivity|].
  rewrite str_app_cons, IH. reflexivity.
Qed.

Lemma truthy_app_r (a b : string) : truthy b = true -> truthy (a +:+ b) = true.
Proof. destruct a; [auto | reflexivity]. Qed.

Lemma paragraphs_join (t : string) (rest : list string) :
  paragraphs (t :: rest) = str_join (nl +:+ nl) (t :: rest) +:+ nl +:+ nl.
Proof.
  revert t. induction rest as [|t' rest IH]; intros t.
  - cbn [paragraphs str_join]. now rewrite str_app_nil_r.
  - change (paragraphs (t :: t' :: rest)) with (t +:+ nl +:+ nl +:+ paragraphs (t' :: rest)).
    rewrite IH.
    change (str_join (nl +:+ nl) (t :: t' :: rest))
      with (t +:+ (nl +:+ nl) +:+ str_join (nl +:+ nl) (t' :: rest)).
    now rewrite !str_app_assoc.
Qed.

Lemma paragraphs_truthy (texts : list string) :
  truthy (paragraphs texts) = match texts with [] => false | _ => true end.
Proof.
  destruct texts as [|t rest]; [reflexivity|].
  cbn [paragraphs]. apply truthy_app_r. reflexivity.
Qed.

(** ** The analysis request *)

Lemma extracted_texts_cons (uf : option UploadedFile) (rest : list (option UploadedFile)) :
  extracted_texts (uf :: rest)
  = match text_of uf with
    | Some t => t :: extracted_texts rest
    | None => extracted_texts rest
    end.
Proof. reflexivity. Qed.

(** The loop never raises and touches neither the conversation log nor the
    model, whatever the store holds. *)
Lemma for_uploaded_files_frame (files : list (option UploadedFile)) :
  forall acc hs w,
  exists r w',
    for_uploaded_files files acc hs w = (Returned r, w')
    /\ conversation_history w' = conversation_history w
    /\ model_calls w' = model_calls w.
Proof.
  induction files as [|[f|] rest IH]; intros acc hs w.
  - exists (acc, hs), w. auto.
  - cbn [for_uploaded_files]. unfold bind.
    destruct (extract_frame f w) as (v & w1 & -> & Hh & Hm).
    destruct v as [[t|] h].
    + destruct (truthy t).
      * destruct (IH (acc +:+ t +:+ nl +:+ nl) (hs ++ [h]) w1) as (r & w' & -> & Hh' & Hm').
        exists r, w'. split; [reflexivity|]. split; congruence.
      * destruct (IH acc hs w1) as (r & w' & -> & Hh' & Hm').
        exists r, w'. split; [reflexivity|]. split; congruence.
    + destruct (IH acc hs w1) as (r & w' & -> & Hh' & Hm').
      exists r, w'. split; [reflexivity|]. split; congruence.
  - cbn [for_uploaded_files]. apply IH.
Qed.

(** In a sound state the loop accumulates the contributed texts of the
    files, each followed by a blank line, and displays their error
    reports. *)
Lemma for_uploaded_files_sound (Hkey : key_faithful) (files : list (option UploadedFile)) :
  forall acc hs w, cache_sound w ->
  exists hs' w',
    for_uploaded_files files acc hs w
    = (Returned (acc +:+ paragraphs (extracted_texts files), hs'), w')
    /\ cache_sound w'
    /\ conversation_history w' = conversation_history w
    /\ screen w' = screen w ++ error_reports files
    /\ model_calls w' = model_calls w.
Proof.
  induction files as [|[f|] rest IH]; intros acc hs w Hw.
  - exists hs, w. cbn. rewrite str_app_nil_r, app_nil_r. auto.
  - cbn [for_uploaded_files]. unfold bind.
    destruct (extract_sound f w Hkey Hw) as (w1 & -> & Hw1 & Hh & Hs & Hm).
    rewrite extracted_texts_cons. cbn [text_of error_reports flat_map].
    fold (error_reports rest).
    destruct (value_of f) as [[t|] h]; cbn [fst].
    + destruct (truthy t).
      * destruct (IH (acc +:+ t +:+ nl +:+ nl) (hs ++ [h]) w1 Hw1)
          as (hs' & w' & -> & Hw' & Hh' & Hs' & Hm').
        exists hs', w'. cbn [paragraphs]. rewrite !str_app_assoc.
        split; [reflexivity|]. split; [exact Hw'|].
        rewrite Hh', Hs', Hm', Hh, Hs, Hm, app_assoc. auto.
      * destruct (IH acc hs w1 Hw1) as (hs' & w' & -> & Hw' & Hh' & Hs' & Hm').
        exists hs', w'. split; [reflexivity|]. split; [exact Hw'|].
        rewrite Hh', Hs', Hm', Hh, Hs, Hm, app_assoc. auto.
    + destruct (IH acc hs w1 Hw1) as (hs' & w' & -> & Hw' & Hh' & Hs' & Hm').
      exists hs', w'. split; [reflexivity|]. split; [exact Hw'|].
      rewrite Hh', Hs', Hm', Hh, Hs, Hm, app_assoc. auto.
  - cbn [for_uploaded_files]. rewrite extracted_texts_cons. cbn [text_of].
    apply IH. exact Hw.
Qed.

(** [generate_text] after its loop. *)
Lemma generate_text_run (files : list (option UploadedFile)) (jd : string) (w : World)
    (combined : string) (hs : list (option string)) (w1 : World) :
  for_uploaded_files files "" [] w = (Returned (combined, hs), w1) ->
  generate_text files jd w
  = if truthy combined then
      let w2 := log_model_call (analysis_prompt jd combined)
                  (add_elements [st_spinner "Generating..."]
                     (add_elements [st_text_area "Extracted Text" combined] w1)) in
      match generate_content (model_calls w1) (analysis_prompt jd combined) with
      | Returned answer => (Returned tt, add_elements [st_markdown answer] w2)
      | Raised e => (Raised e, w2)
      end
    else (Returned tt, w1).
Proof.
  intros E. unfold generate_text, bind. rewrite E. cbn [fst].
  destruct (truthy combined); [|reflexivity].
  unfold show, call_model.
  destruct (generate_content _ _); reflexivity.
Qed.

Lemma generate_text_sound (Hkey : key_faithful) (files : list (option UploadedFile))
    (jd : string) (w : World) :
  cache_sound w ->
  fst (generate_text files jd w)
  = analysis_result (model_calls w) jd (extracted_texts files)
  /\ cache_sound (snd (generate_text files jd w))
  /\ conversation_history (snd (generate_text files jd w)) = conversation_history w
  /\ screen (snd (generate_text files jd w))
     = screen w ++ error_reports files
       ++ analysis_output (model_calls w) jd (extracted_texts files)
  /\ model_calls (snd (generate_text files jd w))
     = model_calls w ++ analysis_calls jd (extracted_texts files).
Proof.
  intros Hw.
  destruct (for_uploaded_files_sound Hkey files "" [] w Hw)
    as (hs & w1 & E & Hw1 & Hh & Hs & Hm).
  change ("" +:+ ?x) with x in E.
  rewrite (generate_text_run files jd w _ hs w1 E), paragraphs_truthy.
  destruct (extracted_texts files) as [|t ts] eqn:Et.
  - cbn. rewrite !app_nil_r. auto.
  - cbn [analysis_output analysis_calls analysis_result]. cbn zeta. rewrite Hm.
    destruct (generate_content _ _) as [answer|e]; cbn;
      rewrite Hs, Hm, Hh, <- !app_assoc; auto.
Qed.

(** The loop and the request leave the conversation log alone in every
    state. *)
Lemma generate_text_history (files : list (option UploadedFile)) (jd : string) (w : World) :
  conversation_history (snd (generate_text files jd w)) = conversation_history w.
Proof.
  destruct (for_uploaded_files_frame files "" [] w) as ([c hs] & w1 & E & Hh & Hm).
  rewrite (generate_text_run files jd w c hs w1 E).
  destruct (truthy c); [|exact Hh].
  cbn zeta. destruct (generate_content _ _); exact Hh.
Qed.

Lemma analyze_button_history (clicked : bool) (files : list (option UploadedFile))
    (jd : string) (w : World) :
  conversation_history (snd (analyze_button clicked files jd w)) = conversation_history w.
Proof.
  unfold analyze_button. destruct clicked; [|reflexivity].
  destruct files; [reflexivity|]. apply generate_text_history.
Qed.

(** ** The chat assistant *)

(** One call of [chatbot], by the outcome of the model call. *)
Lemma chatbot_run (user_input : string) (w : World) :
  let log := history w ++ [mkEntry "User" user_input] in
  let prompt := conversation_context log +:+ nl +:+ "Bot:" in
  chatbot user_input w
  = match generate_content (model_calls w) prompt with
    | Returned response_text =>
        (Returned (str_strip response_text),
         mkWorld (cache w)
           (Some (log ++ [mkEntry "Bot" (str_strip response_text)]))
           (screen w ++ [st_spinner "Your virtual assistant is thinking..."])
           (reader_calls w) (model_calls w ++ [prompt]))
    | Raised e =>
        (Returned fallback_message,
         mkWorld (cache w) (Some log)
           (screen w ++ [st_spinner "Your virtual assistant is thinking...";
                         st_error ("Error with chatbot: " +:+ e)])
           (reader_calls w) (model_calls w ++ [prompt]))
    end.
Proof.
  intros log prompt. subst log prompt.
  unfold chatbot, bind, init_history, append_turn, build_context, try_except,
    show, call_model, ret.
  destruct w as [c [h|] s r m]; cbn;
    destruct (generate_content _ _);
    unfold add_elements, log_model_call, set_history, history; cbn;
    rewrite <- ?app_assoc; reflexivity.
Qed.

(** ** Extraction: failures and the store *)

Lemma extraction_unfold (f : UploadedFile) :
  extraction f
  = match md5_hexdigest (getvalue f) with
    | Raised e => Raised e
    | Returned h =>
        match PdfReader (getvalue f) with
        | Raised e => Raised e
        | Returned pages =>
            match fst (comprehension extract_text pages fresh) with
            | Raised e => Raised e
            | Returned text_lines => Returned (Some (str_join "" text_lines), Some h)
            end
        end
    end.
Proof.
  unfold extraction, extract_text_from_pdf_try, hash_pdf, call_PdfReader, bind, lift, ret.
  destruct (md5_hexdigest (getvalue f)) as [h|e]; [|reflexivity].
  destruct (PdfReader (getvalue f)) as [pages|e]; [|reflexivity].
  rewrite comprehension_extract_text_run.
  destruct (fst (comprehension extract_text pages fresh)); reflexivity.
Qed.

Lemma comprehension_page_raises (pages : list page) :
  Exists (fun p => exists e, page_extract_text p = Raised e) pages ->
  exists e, fst (comprehension extract_text pages fresh) = Raised e.
Proof.
  induction 1 as [p rest [e He]|p rest _ [e IH]].
  - exists e. cbn [comprehension]. unfold bind, extract_text at 1, lift.
    rewrite He. reflexivity.
  - cbn [comprehension]. unfold bind, extract_text at 1, lift.
    destruct (page_extract_text p) as [t|e']; [|exists e'; reflexivity].
    rewrite comprehension_extract_text_run. rewrite IH. exists e. reflexivity.
Qed.

(** A failed extraction on a miss: the absent pair, one error report, and an
    entry in the store. *)
Lemma extract_miss_failure (f : UploadedFile) (w : World) (e : string) :
  cache w !! cache_key f = None -> extraction f = Raised e ->
  extract_text_from_pdf f w
  = (Returned (None, None),
     mkWorld (<[cache_key f := ((None, None), [st_error ("Error reading PDF: " +:+ e)])]> (cache w))
       (conversation_history w)
       (screen w ++ [st_error ("Error reading PDF: " +:+ e)])
       (reader_calls w ++ reads_of f) (model_calls w)).
Proof.
  intros Hmiss He. rewrite (extract_miss f w Hmiss).
  unfold value_of, shown_of. rewrite He. reflexivity.
Qed.

(** C9: [extract_text_from_pdf] returns in every state and for every file;
    when anything in its [try] block raises (the digest, the parser, or the
    text extraction of a page) the call returns the absent pair
    [(None, None)] after displaying the error, and the loop of the caller
    never sees an exception either. *)
Theorem extract_text_from_pdf_never_raises (f : UploadedFile) (w : World) :
  (exists v w', extract_text_from_pdf f w = (Returned v, w'))
  /\ (forall e, cache w !! cache_key f = None ->
        fst (extract_text_from_pdf_try f w) = Raised e ->
        exists w', extract_text_from_pdf f w = (Returned (None, None), w')
                   /\ screen w' = screen w ++ [st_error ("Error reading PDF: " +:+ e)])
  /\ (forall e, md5_hexdigest (getvalue f) = Raised e ->
        fst (extract_text_from_pdf_try f w) = Raised e)
  /\ (forall h e, md5_hexdigest (getvalue f) = Returned h ->
        PdfReader (getvalue f) = Raised e ->
        fst (extract_text_from_pdf_try f w) = Raised e)
  /\ (forall h pages, md5_hexdigest (getvalue f) = Returned h ->
        PdfReader (getvalue f) = Returned pages ->
        Exists (fun p => exists e, page_extract_text p = Raised e) pages ->
        exists e, fst (extract_text_from_pdf_try f w) = Raised e)
  /\ (forall files acc hs, exists r w',
        for_uploaded_files (Some f :: files) acc hs w = (Returned r, w')).
Proof.
  rewrite extraction_any_state, extraction_unfold.
  split; [|split; [|split; [|split; [|split]]]].
  - destruct (extract_frame f w) as (v & w' & E & _). eauto.
  - intros e Hmiss He. eexists.
    rewrite (extract_miss_failure f w e Hmiss); [split; reflexivity|].
    rewrite extraction_unfold. exact He.
  - intros e ->. reflexivity.
  - intros h e -> ->. reflexivity.
  - intros h pages -> -> Hp.
    destruct (comprehension_page_raises pages Hp) as [e ->]. eauto.
  - intros files acc hs.
    destruct (for_uploaded_files_frame (Some f :: files) acc hs w) as (r & w' & E & _).
    eauto.
Qed.

(** C1, as the code has it: a failed extraction returns the absent pair and
    displays an error report, and the decorator stores that outcome like any
    other return value: a later call with the same file, in any state that
    still holds the entry, returns the stored [(None, None)] and replays the
    stored report without invoking the parser again. *)
Theorem failed_extraction_is_stored (f : UploadedFile) (w : World) (e : string) :
  cache w !! cache_key f = None ->
  fst (extract_text_from_pdf_try f w) = Raised e ->
  exists w1,
    extract_text_from_pdf f w = (Returned (None, None), w1)
    /\ screen w1 = screen w ++ [st_error ("Error reading PDF: " +:+ e)]
    /\ cache w1 !! cache_key f
       = Some ((None, None), [st_error ("Error reading PDF: " +:+ e)])
    /\ forall w2, cache w2 !! cache_key f = cache w1 !! cache_key f ->
         extract_text_from_pdf f w2
         = (Returned (None, None),
            add_elements [st_error ("Error reading PDF: " +:+ e)] w2)
         /\ reader_calls (snd (extract_text_from_pdf f w2)) = reader_calls w2.
Proof.
  intros Hmiss He. rewrite extraction_any_state in He.
  eexists. rewrite (extract_miss_failure f w e Hmiss He).
  split; [reflexivity|]. split; [reflexivity|].
  cbn [cache]. split; [apply lookup_insert_eq|].
  intros w2 H2. rewrite lookup_insert_eq in H2.
  rewrite (extract_hit f w2 _ _ H2). split; reflexivity.
Qed.

(** The second of two calls whose arguments have the same key is served
    from the store: it returns what the first call returned, replays what
    the first call displayed and does not invoke the parser. *)
Lemma second_call_same_key (f g : UploadedFile) (w : World) :
  cache w !! cache_key f = None ->
  cache_key g = cache_key f ->
  let w1 := snd (extract_text_from_pdf f w) in
  extract_text_from_pdf g w1 = (fst (extract_text_from_pdf f w), add_elements (shown_of f) w1)
  /\ reader_calls (snd (extract_text_from_pdf g w1)) = reader_calls w1.
Proof.
  intros Hmiss Hk. rewrite (extract_miss f w Hmiss). cbn [fst snd].
  assert (E : cache (mkWorld (<[cache_key f := (value_of f, shown_of f)]> (cache w))
                       (conversation_history w) (screen w ++ shown_of f)
                       (reader_calls w ++ reads_of f) (model_calls w)) !! cache_key g
              = Some (value_of f, shown_of f)).
  { cbn [cache]. rewrite Hk. apply lookup_insert_eq. }
  rewrite (extract_hit g _ _ _ E). split; reflexivity.
Qed.

(** ** The conversation log *)

(** C3: when the model call of a chat turn raises, [chatbot] returns the
    fixed fallback message; the log has gained the user's turn and nothing
    else, and the error is displayed. *)
Theorem chatbot_generation_failure (user_input : string) (w : World) (e : string) :
  generate_content (model_calls w)
    (conversation_context (history w ++ [mkEntry "User" user_input]) +:+ nl +:+ "Bot:")
  = Raised e ->
  exists w',
    chatbot user_input w = (Returned "Sorry, I couldn't process that request.", w')
    /\ history w' = history w ++ [mkEntry "User" user_input]
    /\ screen w' = screen w ++ [st_spinner "Your virtual assistant is thinking...";
                                st_error ("Error with chatbot: " +:+ e)]
    /\ model_calls w'
       = model_calls w
         ++ [conversation_context (history w ++ [mkEntry "User" user_input]) +:+ nl +:+ "Bot:"].
Proof.
  intros He. pose proof (chatbot_run user_input w) as Hrun. cbn zeta in Hrun.
  rewrite He in Hrun. eexists. rewrite Hrun. repeat split.
Qed.

Lemma chatbot_history (user_input : string) (w : World) :
  exists answer,
    history (snd (chatbot user_input w))
    = history w ++ mkEntry "User" user_input :: answer
    /\ (answer = [] \/ exists m, answer = [mkEntry "Bot" m]).
Proof.
  pose proof (chatbot_run user_input w) as Hrun. cbn zeta in Hrun. rewrite Hrun.
  destruct (generate_content _ _) as [r|e].
  - exists [mkEntry "Bot" (str_strip r)]. unfold history at 1. cbn.
    rewrite <- app_assoc. eauto.
  - exists []. unfold history at 1. cbn. auto.
Qed.

Lemma bots_preceded_snoc (log : list entry) (t : entry) :
  bots_preceded log ->
  (role t = "Bot" -> exists j e', log !! j = Some e' /\ role e' = "User") ->
  bots_preceded (log ++ [t]).
Proof.
  intros Hlog Ht i e Hi Hr.
  apply lookup_app_Some in Hi as [Hi|[Hlen Hi]].
  - destruct (Hlog i e Hi Hr) as (j & e' & Hj & He' & Hu).
    exists j, e'. split; [exact Hj|]. split; [|exact Hu].
    apply lookup_app_l_Some. exact He'.
  - destruct (i - length log) as [|k] eqn:Ek; [|destruct k; discriminate].
    injection Hi as <-.
    destruct (Ht Hr) as (j & e' & He' & Hu).
    exists j, e'. split; [|split; [|exact Hu]].
    + apply lookup_lt_Some in He'. lia.
    + apply lookup_app_l_Some. exact He'.
Qed.

Lemma bots_preceded_turn (log : list entry) (u : string) (answer : list entry) :
  bots_preceded log ->
  answer = [] \/ (exists m, answer = [mkEntry "Bot" m]) ->
  bots_preceded (log ++ mkEntry "User" u :: answer).
Proof.
  intros Hlog [->|[m ->]].
  - apply bots_preceded_snoc; [exact Hlog|]. discriminate.
  - change (log ++ [mkEntry "User" u; mkEntry "Bot" m])
      with (log ++ [mkEntry "User" u] ++ [mkEntry "Bot" m]).
    rewrite app_assoc. apply bots_preceded_snoc.
    + apply bots_preceded_snoc; [exact Hlog|]. discriminate.
    + intros _. exists (length log), (mkEntry "User" u). split; [|reflexivity].
      rewrite lookup_app_r by lia. rewrite Nat.sub_diag. reflexivity.
Qed.

Lemma step_history (w w' : World) :
  step w w' ->
  exists suffix,
    history w' = history w ++ suffix
    /\ (suffix = [] \/ exists u answer,
          suffix = mkEntry "User" u :: answer
          /\ (answer = [] \/ exists m, answer = [mkEntry "Bot" m])).
Proof.
  intros [u w0|clicked files jd w0].
  - destruct (chatbot_history u w0) as (answer & E & Ha).
    exists (mkEntry "User" u :: answer). split; [exact E|]. right. eauto.
  - exists []. unfold history. rewrite analyze_button_history, app_nil_r. auto.
Qed.

(** C4: the log of a fresh session is empty; every user action leaves the
    old log as a prefix of the new one, a chat turn adding the user's turn
    and at most one Bot turn after it; and in every reachable state each Bot
    turn has a User turn somewhere before it. *)
Theorem conversation_log_grows_by_appending :
  history fresh = []
  /\ (forall w w', step w w' -> exists suffix, history w' = history w ++ suffix)
  /\ (forall user_input w, exists answer,
        history (snd (chatbot user_input w))
        = history w ++ mkEntry "User" user_input :: answer
        /\ (answer = [] \/ exists m, answer = [mkEntry "Bot" m]))
  /\ (forall w, reachable w -> bots_preceded (history w)).
Proof.
  split; [reflexivity|]. split; [|split].
  - intros w w' Hs. destruct (step_history w w' Hs) as (suffix & E & _). eauto.
  - apply chatbot_history.
  - induction 1 as [|w w' _ IH Hs].
    + intros i e Hi. discriminate.
    + destruct (step_history w w' Hs) as (suffix & -> & [->|(u & answer & -> & Ha)]).
      * rewrite app_nil_r. exact IH.
      * apply bots_preceded_turn; assumption.
Qed.

Lemma str_join_snoc (sep : string) (parts : list string) (x : string) :
  str_join sep (parts ++ [x])
  = match parts with
    | [] => x
    | _ :: _ => str_join sep parts +:+ sep +:+ x
    end.
Proof.
  induction parts as [|y parts IH]; [reflexivity|].
  destruct parts as [|z parts]; [reflexivity|].
  change (str_join sep ((y :: z :: parts) ++ [x]))
    with (y +:+ sep +:+ str_join sep ((z :: parts) ++ [x])).
  rewrite IH.
  change (str_join sep (y :: z :: parts))
    with (y +:+ sep +:+ str_join sep (z :: parts)).
  rewrite !str_app_assoc. reflexivity.
Qed.

(** C5: the context is the turns of the log in order, each as
    [<role>: <message>], joined by newlines.  Rendering only reads the log,
    so rendering again gives the same string; rendering after an append gives
    the previous context with exactly one more line; and the three turns of
    the example render to the expected text. *)
Theorem conversation_context_renders_log :
  (forall log,
      conversation_context log
      = str_join nl (map (fun t => role t +:+ ": " +:+ message t) log))
  /\ (forall w, build_context w = (Returned (conversation_context (history w)), w))
  /\ (forall w, build_context (snd (build_context w)) = build_context w)
  /\ (forall w t,
        fst (build_context (snd (append_turn t w)))
        = Returned match history w with
                   | [] => role t +:+ ": " +:+ message t
                   | _ :: _ => conversation_context (history w) +:+ nl
                               +:+ role t +:+ ": " +:+ message t
                   end)
  /\ (let w1 := snd (append_turn (mkEntry "User" "hi") fresh) in
      let w2 := snd (append_turn (mkEntry "Bot" "hello") w1) in
      let w3 := snd (append_turn (mkEntry "User" "bye") w2) in
      history w3 = [mkEntry "User" "hi"; mkEntry "Bot" "hello"; mkEntry "User" "bye"]
      /\ fst (build_context w3)
         = Returned ("User: hi" +:+ nl +:+ "Bot: hello" +:+ nl +:+ "User: bye")).
Proof.
  split; [reflexivity|]. split; [reflexivity|]. split; [reflexivity|].
  split; [|split; reflexivity].
  intros w t. unfold build_context, append_turn. cbn [fst snd].
  unfold history at 1. cbn [conversation_history set_history default]. unfold id.
  unfold conversation_context. rewrite map_app. cbn [map].
  rewrite str_join_snoc. unfold render_entry.
  destruct (history w); reflexivity.
Qed.

(** C6: the Analyze action on an empty upload list displays the error and
    sends nothing to the model. *)
Theorem analyze_without_files (job_description : string) (w : World) :
  analyze_button true [] job_description w
  = (Returned tt, add_elements [st_error "Please upload at least one PDF file."] w)
  /\ screen (snd (analyze_button true [] job_description w))
     = screen w ++ [st_error "Please upload at least one PDF file."]
  /\ model_calls (snd (analyze_button true [] job_description w)) = model_calls w.
Proof. repeat split. Qed.

(** ** The analysis prompt *)

Lemma text_of_extraction (f : UploadedFile) (t : string) (h : option string) :
  extraction f = Returned (Some t, h) -> truthy t = true -> text_of (Some f) = Some t.
Proof.
  intros E Ht. unfold text_of, value_of. rewrite E. cbn [fst]. rewrite Ht. reflexivity.
Qed.

Lemma text_of_failure (f : UploadedFile) (e : string) :
  extraction f = Raised e -> text_of (Some f) = None.
Proof. intros E. unfold text_of, value_of. rewrite E. reflexivity. Qed.

Lemma text_of_empty (f : UploadedFile) (h : option string) :
  extraction f = Returned (Some "", h) -> text_of (Some f) = None.
Proof. intros E. unfold text_of, value_of. rewrite E. reflexivity. Qed.

Lemma shown_of_failure (f : UploadedFile) (e : string) :
  extraction f = Raised e -> shown_of f = [st_error ("Error reading PDF: " +:+ e)].
Proof. intros E. unfold shown_of. rewrite E. reflexivity. Qed.

Lemma shown_of_success (f : UploadedFile) (v : extracted) :
  extraction f = Returned v -> shown_of f = [].
Proof. intros E. unfold shown_of. rewrite E. reflexivity. Qed.

Lemma error_reports_are_errors (files : list (option UploadedFile)) :
  Forall (fun el => exists e, el = st_error ("Error reading PDF: " +:+ e))
    (error_reports files).
Proof.
  induction files as [|[f|] rest IH]; cbn [error_reports flat_map].
  - constructor.
  - apply Forall_app. split; [|exact IH].
    unfold shown_of. destruct (extraction f) as [v|e]; repeat constructor. eauto.
  - exact IH.
Qed.

Lemma paragraphs_elem (t : string) (texts : list string) :
  t ∈ texts ->
  exists before after, paragraphs texts = before +:+ t +:+ nl +:+ nl +:+ after.
Proof.
  induction texts as [|x texts IH]; intros Hin.
  - apply elem_of_nil in Hin. destruct Hin.
  - apply elem_of_cons in Hin as [->|Hin].
    + exists "", (paragraphs texts). reflexivity.
    + destruct (IH Hin) as (before & after & E).
      exists (x +:+ nl +:+ nl +:+ before), after.
      cbn [paragraphs]. rewrite E, !str_app_assoc. reflexivity.
Qed.

(** C7: the one prompt an analysis request sends is, letter for letter, the
    fixed instructions, the line [Job Description:] with the job description
    under it, and the line [Resume Content:] with the texts of the files
    under it in upload order, a blank line between them and after the last.
    Every file whose extraction gave a non-empty text is among these texts,
    and each of these texts stands in the prompt, after the job description
    and followed by a blank line.  No prompt is sent when no file gave a
    text. *)
Theorem analysis_prompt_holds_texts_in_order (Hkey : key_faithful)
    (uploaded_files : list (option UploadedFile)) (job_description : string) (w : World) :
  cache_sound w ->
  model_calls (snd (generate_text uploaded_files job_description w))
  = model_calls w
    ++ match extracted_texts uploaded_files with
       | [] => []
       | t :: rest =>
           ["Assess candidate fit for the job description. Consider substitutes for skills, experience, match percentage in tabular form:"
               +:+ nl +:+ nl
               +:+ "Skills: Match or equivalent technologies." +:+ nl
               +:+ "Experience: Relevance to key responsibilities." +:+ nl
               +:+ "Fit: Suitability based on experience and skills." +:+ nl +:+ nl
               +:+ "Job Description:" +:+ nl +:+ job_description +:+ nl +:+ nl
               +:+ "Resume Content:" +:+ nl
               +:+ str_join (nl +:+ nl) (t :: rest) +:+ nl +:+ nl]
       end
  /\ (forall f t h,
        Some f ∈ uploaded_files -> extraction f = Returned (Some t, h) ->
        truthy t = true -> t ∈ extracted_texts uploaded_files)
  /\ (forall t,
        t ∈ extracted_texts uploaded_files ->
        exists before after,
          model_calls (snd (generate_text uploaded_files job_description w))
          = model_calls w
            ++ ["Assess candidate fit for the job description. Consider substitutes for skills, experience, match percentage in tabular form:"
               +:+ nl +:+ nl
               +:+ "Skills: Match or equivalent technologies." +:+ nl
               +:+ "Experience: Relevance to key responsibilities." +:+ nl
               +:+ "Fit: Suitability based on experience and skills." +:+ nl +:+ nl
               +:+ "Job Description:" +:+ nl +:+ job_description +:+ nl +:+ nl
               +:+ "Resume Content:" +:+ nl
                  +:+ before +:+ t +:+ nl +:+ nl +:+ after]).
Proof.
  intros Hw.
  destruct (generate_text_sound Hkey uploaded_files job_description w Hw)
    as (_ & _ & _ & _ & M).
  split; [|split].
  - rewrite M. unfold analysis_calls.
    destruct (extracted_texts uploaded_files) as [|t rest]; [reflexivity|].
    rewrite paragraphs_join. reflexivity.
  - intros f t h Hin E Ht. unfold extracted_texts.
    apply list_elem_of_omap. exists (Some f). split; [exact Hin|].
    exact (text_of_extraction f t h E Ht).
  - intros t Hin.
    destruct (paragraphs_elem t _ Hin) as (before & after & E).
    exists before, after. rewrite M. unfold analysis_calls.
    destruct (extracted_texts uploaded_files) as [|t0 rest];
      [apply elem_of_nil in Hin; destruct Hin|].
    rewrite E. reflexivity.
Qed.

(** C8: of two uploaded files, one whose extraction fails and one that gives
    a text, in either order: the error of the first is displayed and the
    text of the second is the resume content of the prompt that is sent. *)
Theorem failed_file_does_not_block_the_other (Hkey : key_faithful)
    (bad good : UploadedFile) (job_description : string) (w : World)
    (e t : string) (h : option string) :
  cache_sound w ->
  extraction bad = Raised e ->
  extraction good = Returned (Some t, h) ->
  truthy t = true ->
  (model_calls (snd (generate_text [Some bad; Some good] job_description w))
   = model_calls w ++ [analysis_prompt job_description (t +:+ nl +:+ nl)]
   /\ model_calls (snd (generate_text [Some good; Some bad] job_description w))
      = model_calls w ++ [analysis_prompt job_description (t +:+ nl +:+ nl)])
  /\ (exists shown,
        screen (snd (generate_text [Some bad; Some good] job_description w))
        = screen w ++ st_error ("Error reading PDF: " +:+ e)
                   :: st_text_area "Extracted Text" (t +:+ nl +:+ nl) :: shown)
  /\ (exists shown,
        screen (snd (generate_text [Some good; Some bad] job_description w))
        = screen w ++ st_error ("Error reading PDF: " +:+ e)
                   :: st_text_area "Extracted Text" (t +:+ nl +:+ nl) :: shown).
Proof.
  intros Hw Hbad Hgood Ht.
  pose proof (text_of_failure bad e Hbad) as Tb.
  pose proof (text_of_extraction good t h Hgood Ht) as Tg.
  pose proof (shown_of_failure bad e Hbad) as Sb.
  pose proof (shown_of_success good _ Hgood) as Sg.
  destruct (generate_text_sound Hkey [Some bad; Some good] job_description w Hw)
    as (_ & _ & _ & S1 & M1).
  destruct (generate_text_sound Hkey [Some good; Some bad] job_description w Hw)
    as (_ & _ & _ & S2 & M2).
  rewrite S1, M1, S2, M2.
  rewrite !extracted_texts_cons, Tb, Tg.
  cbn [error_reports flat_map]. rewrite Sb, Sg.
  change (extracted_texts []) with (@nil string).
  cbn [analysis_calls analysis_output paragraphs app].
  rewrite str_app_nil_r.
  split; [split; reflexivity|]. split; eexists; reflexivity.
Qed.

(** C10: when every uploaded file fails extraction or gives the empty text,
    the request returns without calling the model; what it displays is the
    error reports of the files and nothing else. *)
Theorem no_text_no_generation (Hkey : key_faithful)
    (uploaded_files : list (option UploadedFile)) (job_description : string) (w : World) :
  cache_sound w ->
  (forall f, Some f ∈ uploaded_files ->
     (exists e, extraction f = Raised e)
     \/ (exists h, extraction f = Returned (Some "", h))) ->
  fst (generate_text uploaded_files job_description w) = Returned tt
  /\ model_calls (snd (generate_text uploaded_files job_description w)) = model_calls w
  /\ screen (snd (generate_text uploaded_files job_description w))
     = screen w ++ error_reports uploaded_files
  /\ Forall (fun el => exists e, el = st_error ("Error reading PDF: " +:+ e))
       (error_reports uploaded_files).
Proof.
  intros Hw Hall.
  assert (Hnone : extracted_texts uploaded_files = []).
  { induction uploaded_files as [|[f|] rest IH]; [reflexivity| |].
    - rewrite extracted_texts_cons.
      destruct (Hall f) as [[e He]|[h He]]; [left|..].
      + rewrite (text_of_failure f e He). apply IH.
        intros g Hg. apply Hall. right. exact Hg.
      + rewrite (text_of_empty f h He). apply IH.
        intros g Hg. apply Hall. right. exact Hg.
    - rewrite extracted_texts_cons. apply IH.
      intros g Hg. apply Hall. right. exact Hg. }
  destruct (generate_text_sound Hkey uploaded_files job_description w Hw)
    as (R & _ & _ & S & M).
  rewrite R, S, M, Hnone. cbn [analysis_result analysis_calls analysis_output].
  rewrite !app_nil_r.
  split; [reflexivity|]. split; [reflexivity|]. split; [reflexivity|].
  apply error_reports_are_errors.
Qed.

(** ** Sessions keep the store sound *)

Lemma fresh_sound : cache_sound fresh.
Proof. intros f v shown H. cbn in H. rewrite lookup_empty in H. discriminate. Qed.

(** A user action keeps the store sound. *)
Lemma step_cache_sound (Hkey : key_faithful) (w w' : World) :
  step w w' -> cache_sound w -> cache_sound w'.
Proof.
  intros [u w0|clicked files jd w0] Hw.
  - pose proof (chatbot_run u w0) as Hrun. cbn zeta in Hrun. rewrite Hrun.
    destruct (generate_content _ _); exact Hw.
  - unfold analyze_button. destruct clicked; [|exact Hw].
    destruct files as [|uf files]; [exact Hw|].
    apply (generate_text_sound Hkey (uf :: files) jd w0 Hw).
Qed.

(** With a faithful key, the store is sound in every state a session
    reaches. *)
Lemma reachable_cache_sound (Hkey : key_faithful) (w : World) :
  reachable w -> cache_sound w.
Proof.
  induction 1 as [|w w' _ IH Hs].
  - exact fresh_sound.
  - exact (step_cache_sound Hkey w w' Hs IH).
Qed.

(** ** More on the chat assistant *)

(** What every chat turn does, whatever the model does. *)
Lemma chatbot_sends (user_input : string) (w : World) :
  exists r w',
    chatbot user_input w = (Returned r, w')
    /\ conversation_history w' = Some (history w')
    /\ model_calls w'
       = model_calls w
         ++ [conversation_context (history w ++ [mkEntry "User" user_input]) +:+ nl +:+ "Bot:"]
    /\ cache w' = cache w
    /\ reader_calls w' = reader_calls w.
Proof.
  pose proof (chatbot_run user_input w) as Hrun. cbn zeta in Hrun. rewrite Hrun.
  destruct (generate_content _ _); eexists _, _; repeat split.
Qed.

(** An answered chat turn. *)
Lemma chatbot_answered (user_input : string) (w : World) (answer : string) :
  generate_content (model_calls w)
    (conversation_context (history w ++ [mkEntry "User" user_input]) +:+ nl +:+ "Bot:")
  = Returned answer ->
  exists w',
    chatbot user_input w = (Returned (str_strip answer), w')
    /\ history w'
       = (history w ++ [mkEntry "User" user_input]) ++ [mkEntry "Bot" (str_strip answer)]
    /\ screen w' = screen w ++ [st_spinner "Your virtual assistant is thinking..."]
    /\ model_calls w'
       = model_calls w
         ++ [conversation_context (history w ++ [mkEntry "User" user_input]) +:+ nl +:+ "Bot:"].
Proof.
  intros He. pose proof (chatbot_run user_input w) as Hrun. cbn zeta in Hrun.
  rewrite He in Hrun. eexists. rewrite Hrun. repeat split.
Qed.

(** When the model answers, [chatbot] returns the stripped answer; the log
    gains the user's turn and then the Bot turn holding that answer, and the
    one prompt sent is the rendered log followed by a line [Bot:]. *)
Theorem chatbot_answer_is_logged (user_input : string) (w : World) (answer : string) :
  generate_content (model_calls w)
    (conversation_context (history w ++ [mkEntry "User" user_input]) +:+ nl +:+ "Bot:")
  = Returned answer ->
  exists w',
    chatbot user_input w = (Returned (str_strip answer), w')
    /\ history w'
       = history w ++ [mkEntry "User" user_input; mkEntry "Bot" (str_strip answer)]
    /\ screen w' = screen w ++ [st_spinner "Your virtual assistant is thinking..."]
    /\ model_calls w'
       = model_calls w
         ++ [conversation_context (history w ++ [mkEntry "User" user_input]) +:+ nl +:+ "Bot:"].
Proof.
  intros He. destruct (chatbot_answered user_input w answer He) as (w' & E & H & S & M).
  exists w'. rewrite H, <- app_assoc. auto.
Qed.

(** A chat turn never raises, sends exactly one prompt to the model, creates
    the conversation slot, and leaves the store and the parser alone. *)
Theorem chatbot_effects (user_input : string) (w : World) :
  exists r w',
    chatbot user_input w = (Returned r, w')
    /\ conversation_history w' = Some (history w')
    /\ model_calls w'
       = model_calls w
         ++ [conversation_context (history w ++ [mkEntry "User" user_input]) +:+ nl +:+ "Bot:"]
    /\ cache w' = cache w
    /\ reader_calls w' = reader_calls w.
Proof. apply chatbot_sends. Qed.

Lemma conversation_context_snoc (log : list entry) (t u : entry) :
  conversation_context ((log ++ [t]) ++ [u])
  = conversation_context (log ++ [t]) +:+ nl +:+ render_entry u.
Proof.
  unfold conversation_context. rewrite (map_app _ (log ++ [t]) [u]). cbn [map].
  rewrite str_join_snoc. rewrite map_app. cbn [map].
  destruct (map render_entry log); reflexivity.
Qed.

(** After an answered turn, the prompt of the next turn is the previous
    prompt continued: the answer on the open [Bot:] line, the new user line,
    and a new open [Bot:] line. *)
Theorem next_prompt_continues_previous (user_input next_input : string) (w : World)
    (answer : string) :
  generate_content (model_calls w)
    (conversation_context (history w ++ [mkEntry "User" user_input]) +:+ nl +:+ "Bot:")
  = Returned answer ->
  let prompt :=
    conversation_context (history w ++ [mkEntry "User" user_input]) +:+ nl +:+ "Bot:" in
  model_calls (snd (chatbot next_input (snd (chatbot user_input w))))
  = model_calls w
    ++ [prompt;
        prompt +:+ " " +:+ str_strip answer +:+ nl
          +:+ "User: " +:+ next_input +:+ nl +:+ "Bot:"].
Proof.
  intros He prompt.
  destruct (chatbot_answered user_input w answer He) as (w1 & E1 & H1 & _ & M1).
  rewrite E1. cbn [snd].
  destruct (chatbot_sends next_input w1) as (r & w2 & E2 & _ & M2 & _).
  rewrite E2. cbn [snd]. rewrite M2, M1, H1, <- app_assoc. cbn [app].
  do 3 f_equal.
  rewrite !conversation_context_snoc.
  unfold prompt, render_entry. cbn [role message].
  rewrite !str_app_assoc. reflexivity.
Qed.

(** ** The assistant page *)

Lemma show_history_run (w : World) :
  show_history w
  = (Returned tt,
     match conversation_history w with
     | Some log =>
         add_elements (st_markdown "### Conversation History" :: map history_bubble log) w
     | None => w
     end).
Proof. unfold show_history. destruct (conversation_history w); reflexivity. Qed.

(** The page with an input: the chat turn, the answer line, the log. *)
Lemma virtual_assistant_page_run (user_input : string) (w : World) :
  truthy user_input = true ->
  exists r w1,
    chatbot user_input w = (Returned r, w1)
    /\ virtual_assistant_page user_input w
       = (Returned tt,
          add_elements (st_markdown "### Conversation History"
                        :: map history_bubble (history w1))
            (add_elements [st_markdown ("Chatbot: " +:+ r)] w1)).
Proof.
  intros Hu. destruct (chatbot_sends user_input w) as (r & w1 & E & Hslot & _).
  exists r, w1. split; [exact E|].
  unfold virtual_assistant_page. rewrite Hu. unfold bind at 1 2. rewrite E.
  unfold show at 1. rewrite show_history_run. cbn [conversation_history add_elements].
  rewrite Hslot. reflexivity.
Qed.

(** The page without an input: only the log is displayed. *)
Lemma virtual_assistant_page_idle (user_input : string) (w : World) :
  truthy user_input = false ->
  virtual_assistant_page user_input w = show_history w.
Proof.
  intros Hu. unfold virtual_assistant_page. rewrite Hu. unfold bind, ret.
  destruct (show_history w). reflexivity.
Qed.

Lemma virtual_assistant_page_history (user_input : string) (w : World) :
  exists suffix,
    history (snd (virtual_assistant_page user_input w)) = history w ++ suffix
    /\ (suffix = [] \/ exists answer,
          suffix = mkEntry "User" user_input :: answer
          /\ (answer = [] \/ exists m, answer = [mkEntry "Bot" m])).
Proof.
  destruct (truthy user_input) eqn:Hu.
  - destruct (virtual_assistant_page_run user_input w Hu) as (r & w1 & E1 & ->).
    destruct (chatbot_history user_input w) as (answer & E & Ha).
    rewrite E1 in E. cbn [snd] in *.
    exists (mkEntry "User" user_input :: answer). split; [exact E|]. right. eauto.
  - rewrite (virtual_assistant_page_idle user_input w Hu), show_history_run.
    exists []. cbn [snd]. rewrite app_nil_r. split; [|auto].
    destruct (conversation_history w) eqn:Es; reflexivity.
Qed.

Lemma page_run_history (w w' : World) :
  page_run w w' ->
  exists suffix,
    history w' = history w ++ suffix
    /\ (suffix = [] \/ exists u answer,
          suffix = mkEntry "User" u :: answer
          /\ (answer = [] \/ exists m, answer = [mkEntry "Bot" m])).
Proof.
  intros [u w0|clicked files jd w0].
  - destruct (virtual_assistant_page_history u w0) as (suffix & E & [->|Hs]).
    + exists []. auto.
    + exists suffix. split; [exact E|]. right. eauto.
  - exists []. unfold history. rewrite analyze_button_history, app_nil_r. auto.
Qed.

Lemma turn_shape_snoc (log : list entry) (t : entry) :
  turn_shape log ->
  role t = "User"
  \/ (role t = "Bot" /\ exists e', last log = Some e' /\ role e' = "User") ->
  turn_shape (log ++ [t]).
Proof.
  intros Hlog Ht i e Hi.
  apply lookup_app_Some in Hi as [Hi|[Hlen Hi]].
  - destruct (Hlog i e Hi) as [Hu|(Hb & j & e' & -> & Hj & Hu)]; [left; exact Hu|].
    right. split; [exact Hb|]. exists j, e'. split; [reflexivity|].
    split; [|exact Hu]. apply lookup_app_l_Some. exact Hj.
  - destruct (i - length log) as [|k] eqn:Ek; [|destruct k; discriminate].
    injection Hi as <-.
    destruct Ht as [Hu|(Hb & e' & Hlast & Hu)]; [left; exact Hu|].
    right. split; [exact Hb|].
    rewrite last_lookup in Hlast.
    destruct (length log) as [|n] eqn:Elen.
    { destruct log; [discriminate Hlast|discriminate Elen]. }
    exists n, e'. split; [lia|]. split; [|exact Hu].
    apply lookup_app_l_Some. exact Hlast.
Qed.

Lemma turn_shape_turn (log : list entry) (u : string) (answer : list entry) :
  turn_shape log ->
  answer = [] \/ (exists m, answer = [mkEntry "Bot" m]) ->
  turn_shape (log ++ mkEntry "User" u :: answer).
Proof.
  intros Hlog [->|[m ->]].
  - apply turn_shape_snoc; [exact Hlog|]. left. reflexivity.
  - change (log ++ [mkEntry "User" u; mkEntry "Bot" m])
      with (log ++ [mkEntry "User" u] ++ [mkEntry "Bot" m]).
    rewrite app_assoc. apply turn_shape_snoc.
    + apply turn_shape_snoc; [exact Hlog|]. left. reflexivity.
    + right. split; [reflexivity|]. exists (mkEntry "User" u).
      rewrite last_snoc. split; reflexivity.
Qed.

(** In every state a session passes through, each turn of the log is a User
    turn, or a Bot turn that stands right after a User turn: the log starts
    with a User turn and no two Bot turns follow one another. *)
Theorem visited_log_shape (w : World) :
  visited w -> turn_shape (history w).
Proof.
  induction 1 as [|w w' _ IH Hs].
  - intros i e Hi. discriminate.
  - destruct (page_run_history w w' Hs) as (suffix & -> & [->|(u & answer & -> & Ha)]).
    + rewrite app_nil_r. exact IH.
    + apply turn_shape_turn; assumption.
Qed.

(** Without an input the page calls nothing and changes nothing but the
    display: the heading and one bubble per turn, in the order of the log,
    when the session has chatted before, and nothing at all otherwise. *)
Theorem assistant_page_without_input (w : World) :
  exists w',
    virtual_assistant_page "" w = (Returned tt, w')
    /\ conversation_history w' = conversation_history w
    /\ cache w' = cache w
    /\ model_calls w' = model_calls w
    /\ reader_calls w' = reader_calls w
    /\ screen w'
       = screen w
         ++ match conversation_history w with
            | Some log => st_markdown "### Conversation History" :: map history_bubble log
            | None => []
            end.
Proof.
  rewrite (virtual_assistant_page_idle "" w eq_refl), show_history_run.
  eexists. split; [reflexivity|].
  destruct (conversation_history w) eqn:Es; cbn; rewrite ?app_nil_r; repeat split;
    exact Es.
Qed.

(** With an input the page makes one chat turn and then displays the
    returned message and the whole log as the turn left it, the user's new
    turn included: one bubble per turn, in order.  Nothing else changes. *)
Theorem assistant_page_with_input (user_input : string) (w : World) :
  truthy user_input = true ->
  exists r w1 w',
    chatbot user_input w = (Returned r, w1)
    /\ virtual_assistant_page user_input w = (Returned tt, w')
    /\ conversation_history w' = conversation_history w1
    /\ cache w' = cache w
    /\ model_calls w' = model_calls w1
    /\ reader_calls w' = reader_calls w
    /\ screen w'
       = screen w1
         ++ st_markdown ("Chatbot: " +:+ r)
            :: st_markdown "### Conversation History"
            :: map history_bubble (history w1)
    /\ exists answer,
         history w1 = history w ++ mkEntry "User" user_input :: answer
         /\ (answer = [] \/ exists m, answer = [mkEntry "Bot" m]).
Proof.
  intros Hu.
  destruct (virtual_assistant_page_run user_input w Hu) as (r & w1 & E1 & E).
  destruct (chatbot_sends user_input w) as (r' & w1' & E1' & _ & _ & Hc & Hr).
  rewrite E1 in E1'. injection E1' as <- <-.
  destruct (chatbot_history user_input w) as (answer & Hh & Ha).
  rewrite E1 in Hh. cbn [snd] in Hh.
  eexists r, w1, _. split; [exact E1|]. split; [exact E|].
  cbn. rewrite <- app_assoc. repeat split; eauto.
Qed.

(** ** The store over a request *)

(** One call of the decorated function, in any state: afterwards the store
    holds the returned value under the key of the file, nothing stored before
    is lost, and the parser ran at most once, on the bytes of this file. *)
Lemma extract_store (f : UploadedFile) (w : World) :
  exists v shown w',
    extract_text_from_pdf f w = (Returned v, w')
    /\ cache w' !! cache_key f = Some (v, shown)
    /\ cache w ⊆ cache w'
    /\ (exists added, reader_calls w' = reader_calls w ++ added
                      /\ (added = [] \/ added = [getvalue f]))
    /\ (is_Some (cache w !! cache_key f) ->
        cache w' = cache w /\ reader_calls w' = reader_calls w)
    /\ model_calls w' = model_calls w.
Proof.
  destruct (cache w !! cache_key f) as [[v shown]|] eqn:E.
  - exists v, shown, (add_elements shown w). rewrite (extract_hit f w v shown E).
    split; [reflexivity|]. split; [exact E|]. split; [reflexivity|].
    split; [exists []; rewrite app_nil_r; auto|]. auto.
  - eexists _, _, _. rewrite (extract_miss f w E). split; [reflexivity|].
    cbn [cache reader_calls model_calls].
    split; [apply lookup_insert_eq|].
    split; [apply insert_subseteq; exact E|].
    split.
    + exists (reads_of f). split; [reflexivity|]. unfold reads_of.
      destruct (md5_hexdigest (getvalue f)); auto.
    + split; [|reflexivity]. intros [x Hx]. discriminate.
Qed.

Lemma stored_text_head (c : gmap string (extracted * list element)) (f : UploadedFile)
    (t : option string) (h : option string) (shown : list element) :
  c !! cache_key f = Some ((t, h), shown) ->
  stored_text c (Some f)
  = match t with
    | Some t => if truthy t then Some t else None
    | None => None
    end.
Proof. intros E. unfold stored_text. rewrite E. reflexivity. Qed.

(** The loop in any state: what it accumulates is what the store holds for
    the files when the loop ends. *)
Lemma for_uploaded_files_store (files : list (option UploadedFile)) :
  forall acc hs w,
  exists hs' w',
    for_uploaded_files files acc hs w
    = (Returned (acc +:+ paragraphs (omap (stored_text (cache w')) files), hs'), w')
    /\ cache w ⊆ cache w'
    /\ (forall f, Some f ∈ files -> is_Some (cache w' !! cache_key f))
    /\ (exists added,
          reader_calls w' = reader_calls w ++ added
          /\ length added <= length files
          /\ Forall (fun c => exists f, Some f ∈ files /\ c = getvalue f) added)
    /\ ((forall f, Some f ∈ files -> is_Some (cache w !! cache_key f)) ->
        cache w' = cache w /\ reader_calls w' = reader_calls w)
    /\ model_calls w' = model_calls w.
Proof.
  induction files as [|[f|] rest IH]; intros acc hs w.
  - exists hs, w. cbn. rewrite str_app_nil_r.
    split; [reflexivity|]. split; [reflexivity|].
    split; [intros f Hf; apply elem_of_nil in Hf; destruct Hf|].
    split; [exists []; rewrite app_nil_r; auto|]. auto.
  - cbn [for_uploaded_files]. unfold bind.
    destruct (extract_store f w)
      as ([t h] & shown & w1 & -> & Hk & Hsub & (added1 & Hr1 & Hadd1) & Hhit & Hm).
    assert (Hnext : forall acc1 hs1, exists hs' w',
      for_uploaded_files rest acc1 hs1 w1
      = (Returned (acc1 +:+ paragraphs (omap (stored_text (cache w')) rest), hs'), w')
      /\ cache w' !! cache_key f = Some ((t, h), shown)
      /\ cache w ⊆ cache w'
      /\ (forall g, Some g ∈ Some f :: rest -> is_Some (cache w' !! cache_key g))
      /\ (exists added,
            reader_calls w' = reader_calls w ++ added
            /\ length added <= length (Some f :: rest)
            /\ Forall (fun c => exists g, Some g ∈ Some f :: rest /\ c = getvalue g) added)
      /\ ((forall g, Some g ∈ Some f :: rest -> is_Some (cache w !! cache_key g)) ->
          cache w' = cache w /\ reader_calls w' = reader_calls w)
      /\ model_calls w' = model_calls w).
    { intros acc1 hs1.
      destruct (IH acc1 hs1 w1)
        as (hs' & w' & E & Hsub' & Hall & (added & Hr & Hlen & Hfrom) & Hhit' & Hm').
      exists hs', w'. split; [exact E|].
      assert (Hk' : cache w' !! cache_key f = Some ((t, h), shown)).
      { eapply lookup_weaken; [exact Hk | exact Hsub']. }
      split; [exact Hk'|]. split; [etrans; eassumption|].
      split.
      { intros g Hg. apply elem_of_cons in Hg as [Hg|Hg].
        - injection Hg as Hg. exists ((t, h), shown). rewrite Hg. exact Hk'.
        - apply Hall. exact Hg. }
      split.
      { exists (added1 ++ added). rewrite Hr, Hr1, app_assoc. split; [reflexivity|].
        split.
        - rewrite length_app. cbn [length].
          destruct Hadd1 as [->| ->]; cbn [length]; lia.
        - apply Forall_app. split.
          + destruct Hadd1 as [->| ->]; [constructor|].
            constructor; [|constructor]. exists f. split; [left|reflexivity].
          + eapply Forall_impl; [exact Hfrom|].
            intros c (g & Hg & ->). exists g. split; [right; exact Hg|reflexivity]. }
      split; [|congruence].
      intros Hin.
      destruct (Hhit (Hin f ltac:(left))) as [Hc1 Hrr1].
      destruct Hhit' as [Hc' Hr'].
      { intros g Hg. rewrite Hc1. apply Hin. right. exact Hg. }
      split; congruence. }
    destruct t as [t|].
    + destruct (truthy t) eqn:Ht.
      * destruct (Hnext (acc +:+ t +:+ nl +:+ nl) (hs ++ [h]))
          as (hs' & w' & E & Hk' & Hrest).
        exists hs', w'. rewrite E. split; [|exact Hrest].
        cbn [omap list_omap]. rewrite (stored_text_head _ f _ _ _ Hk'), Ht.
        cbn [paragraphs]. rewrite !str_app_assoc. reflexivity.
      * destruct (Hnext acc hs) as (hs' & w' & E & Hk' & Hrest).
        exists hs', w'. rewrite E. split; [|exact Hrest].
        cbn [omap list_omap]. rewrite (stored_text_head _ f _ _ _ Hk'), Ht.
        reflexivity.
    + destruct (Hnext acc hs) as (hs' & w' & E & Hk' & Hrest).
      exists hs', w'. rewrite E. split; [|exact Hrest].
      cbn [omap list_omap]. rewrite (stored_text_head _ f _ _ _ Hk').
      reflexivity.
  - cbn [for_uploaded_files].
    destruct (IH acc hs w)
      as (hs' & w' & E & Hsub & Hall & (added & Hr & Hlen & Hfrom) & Hhit & Hm).
    exists hs', w'. split; [exact E|]. split; [exact Hsub|].
    split.
    { intros g Hg. apply elem_of_cons in Hg as [Hg|Hg]; [discriminate|]. auto. }
    split.
    { exists added. split; [exact Hr|]. split; [cbn [length]; lia|].
      eapply Forall_impl; [exact Hfrom|].
      intros c (g & Hg & ->). exists g. split; [right; exact Hg|reflexivity]. }
    split; [|exact Hm].
    intros Hin. apply Hhit. intros g Hg. apply Hin. right. exact Hg.
Qed.

(** A whole request in any state. *)
Lemma generate_text_store (files : list (option UploadedFile)) (jd : string) (w : World) :
  exists w',
    snd (generate_text files jd w) = w'
    /\ model_calls w'
       = model_calls w
         ++ prompts_for jd (paragraphs (omap (stored_text (cache w')) files))
    /\ cache w ⊆ cache w'
    /\ (forall f, Some f ∈ files -> is_Some (cache w' !! cache_key f))
    /\ (exists added,
          reader_calls w' = reader_calls w ++ added
          /\ length added <= length files
          /\ Forall (fun c => exists f, Some f ∈ files /\ c = getvalue f) added)
    /\ ((forall f, Some f ∈ files -> is_Some (cache w !! cache_key f)) ->
        cache w' = cache w /\ reader_calls w' = reader_calls w).
Proof.
  destruct (for_uploaded_files_store files "" [] w)
    as (hs & w1 & E & Hsub & Hall & Hadd & Hhit & Hm).
  change ("" +:+ ?x) with x in E.
  rewrite (generate_text_run files jd w _ hs w1 E). unfold prompts_for.
  destruct (truthy (paragraphs (omap (stored_text (cache w1)) files))) eqn:Ht.
  - cbn zeta. destruct (generate_content _ _); eexists; (split; [reflexivity|]);
      cbn; rewrite Ht, Hm; auto 10.
  - exists w1. cbn [snd]. rewrite Ht, Hm, app_nil_r. auto 10.
Qed.

Lemma virtual_assistant_page_cache (user_input : string) (w : World) :
  cache (snd (virtual_assistant_page user_input w)) = cache w.
Proof.
  destruct (truthy user_input) eqn:Hu.
  - destruct (virtual_assistant_page_run user_input w Hu) as (r & w1 & E1 & ->).
    destruct (chatbot_sends user_input w) as (r' & w1' & E1' & _ & _ & Hc & _).
    rewrite E1 in E1'. injection E1' as <- <-. exact Hc.
  - rewrite (virtual_assistant_page_idle user_input w Hu), show_history_run.
    destruct (conversation_history w); reflexivity.
Qed.

(** No script run removes or replaces an entry of the store: what was stored
    before a run is stored after it, under the same key. *)
Theorem page_run_keeps_store (w w' : World) :
  page_run w w' -> cache w ⊆ cache w'.
Proof.
  intros [u w0|clicked files jd w0].
  - rewrite virtual_assistant_page_cache. reflexivity.
  - unfold analyze_button. destruct clicked; [|reflexivity].
    destruct files as [|uf files]; [reflexivity|].
    destruct (generate_text_store (uf :: files) jd w0) as (w1 & -> & _ & Hsub & _).
    exact Hsub.
Qed.

(** After a request every uploaded file has an entry in the store, so the
    same uploads analysed again (with any job description) are served from
    the store: the parser is not invoked, the store does not change, and the
    resume content of the prompt is the same as the first time. *)
Theorem repeated_request_parses_nothing (uploaded_files : list (option UploadedFile))
    (job_description later_description : string) (w : World) :
  let w1 := snd (generate_text uploaded_files job_description w) in
  let w2 := snd (generate_text uploaded_files later_description w1) in
  (forall f, Some f ∈ uploaded_files -> is_Some (cache w1 !! cache_key f))
  /\ cache w2 = cache w1
  /\ reader_calls w2 = reader_calls w1
  /\ exists combined,
       model_calls w1 = model_calls w ++ prompts_for job_description combined
       /\ model_calls w2 = model_calls w1 ++ prompts_for later_description combined.
Proof.
  intros w1 w2. subst w1 w2.
  destruct (generate_text_store uploaded_files job_description w)
    as (w1 & -> & M1 & _ & Hall & _ & _).
  destruct (generate_text_store uploaded_files later_description w1)
    as (w2 & -> & M2 & _ & _ & _ & Hhit).
  destruct (Hhit Hall) as [Hc Hr].
  split; [exact Hall|]. split; [exact Hc|]. split; [exact Hr|].
  exists (paragraphs (omap (stored_text (cache w1)) uploaded_files)).
  split; [exact M1|]. rewrite M2, Hc. reflexivity.
Qed.

(** A request invokes the parser at most once per uploaded file, and only on
    the bytes of uploaded files. *)
Theorem request_parser_calls_bounded (uploaded_files : list (option UploadedFile))
    (job_description : string) (w : World) :
  exists added,
    reader_calls (snd (generate_text uploaded_files job_description w))
    = reader_calls w ++ added
    /\ length added <= length uploaded_files
    /\ Forall (fun c => exists f, Some f ∈ uploaded_files /\ c = getvalue f) added.
Proof.
  destruct (generate_text_store uploaded_files job_description w)
    as (w1 & -> & _ & _ & _ & Hadd & _).
  exact Hadd.
Qed.

(** ** Extraction that succeeds *)

Lemma comprehension_all_return (pages : list page) (texts : list string) :
  Forall2 (fun p t => page_extract_text p = Returned t) pages texts ->
  fst (comprehension extract_text pages fresh) = Returned texts.
Proof.
  induction 1 as [|p t pages texts Hp _ IH]; [reflexivity|].
  cbn [comprehension]. unfold bind, extract_text at 1, lift. rewrite Hp.
  rewrite comprehension_extract_text_run, IH. reflexivity.
Qed.

Lemma str_join_no_separator (parts : list string) :
  str_join "" parts = foldr String.append "" parts.
Proof.
  induction parts as [|x [|y parts] IH]; [reflexivity| |].
  - cbn. rewrite str_app_nil_r. reflexivity.
  - change (str_join "" (x :: y :: parts)) with (x +:+ "" +:+ str_join "" (y :: parts)).
    rewrite IH. reflexivity.
Qed.

(** The first extraction of a file that the parser reads: the text is the
    texts of its pages one after the other, in page order and with nothing
    between them; the second component is the MD5 digest of the bytes; the
    parser ran once, nothing is displayed, and the pair is stored. *)
Theorem first_extraction_of_readable_file (f : UploadedFile) (w : World)
    (digest : string) (pages : list page) (texts : list string) :
  cache w !! cache_key f = None ->
  md5_hexdigest (getvalue f) = Returned digest ->
  PdfReader (getvalue f) = Returned pages ->
  Forall2 (fun p t => page_extract_text p = Returned t) pages texts ->
  exists w',
    extract_text_from_pdf f w
    = (Returned (Some (foldr String.append "" texts), Some digest), w')
    /\ reader_calls w' = reader_calls w ++ [getvalue f]
    /\ screen w' = screen w
    /\ cache w' !! cache_key f
       = Some ((Some (foldr String.append "" texts), Some digest), [])
    /\ model_calls w' = model_calls w
    /\ conversation_history w' = conversation_history w.
Proof.
  intros Hmiss Hd Hp Ht.
  assert (E : extraction f = Returned (Some (foldr String.append "" texts), Some digest)).
  { rewrite extraction_unfold, Hd, Hp, (comprehension_all_return pages texts Ht).
    rewrite str_join_no_separator. reflexivity. }
  eexists. rewrite (extract_miss f w Hmiss).
  unfold value_of, shown_of, reads_of. rewrite E, Hd.
  split; [reflexivity|]. cbn. rewrite app_nil_r, lookup_insert_eq. repeat split.
Qed.

(** ** The model call of a request *)

(** The model call of [generate_text] stands outside any [try]: when it
    raises, the request raises the same exception, out of [generate_text]
    and out of the button handler, after the extracted text and the spinner
    were displayed; no answer is displayed. *)
Theorem analysis_model_failure_propagates (Hkey : key_faithful)
    (uploaded_files : list (option UploadedFile)) (job_description : string) (w : World)
    (t : string) (rest : list string) (e : string) :
  cache_sound w ->
  extracted_texts uploaded_files = t :: rest ->
  generate_content (model_calls w)
    (analysis_prompt job_description (paragraphs (t :: rest))) = Raised e ->
  fst (generate_text uploaded_files job_description w) = Raised e
  /\ fst (analyze_button true uploaded_files job_description w) = Raised e
  /\ screen (snd (generate_text uploaded_files job_description w))
     = screen w ++ error_reports uploaded_files
       ++ [st_text_area "Extracted Text" (paragraphs (t :: rest));
           st_spinner "Generating..."]
  /\ model_calls (snd (generate_text uploaded_files job_description w))
     = model_calls w ++ [analysis_prompt job_description (paragraphs (t :: rest))].
Proof.
  intros Hw Ht He.
  destruct (generate_text_sound Hkey uploaded_files job_description w Hw)
    as (R & _ & _ & S & M).
  rewrite Ht in R, S, M. cbn [analysis_result analysis_output analysis_calls] in R, S, M.
  rewrite He in R, S.
  split; [exact R|]. split; [|split; [exact S|exact M]].
  destruct uploaded_files as [|uf files]; [discriminate Ht|exact R].
Qed.

(** When the model answers a request, the answer is displayed after the
    extracted text.  The prompt that was sent is, letter for letter, the
    fixed instructions, the job description, and under [Resume Content:] the
    very text the text area shows: the texts of the files, a blank line
    between them and after the last. *)
Theorem analysis_answer_is_displayed (Hkey : key_faithful)
    (uploaded_files : list (option UploadedFile)) (job_description : string) (w : World)
    (t : string) (rest : list string) (answer : string) :
  let resume_content := str_join (nl +:+ nl) (t :: rest) +:+ nl +:+ nl in
  let prompt :=
    "Assess candidate fit for the job description. Consider substitutes for skills, experience, match percentage in tabular form:"
      +:+ nl +:+ nl
      +:+ "Skills: Match or equivalent technologies." +:+ nl
      +:+ "Experience: Relevance to key responsibilities." +:+ nl
      +:+ "Fit: Suitability based on experience and skills." +:+ nl +:+ nl
      +:+ "Job Description:" +:+ nl +:+ job_description +:+ nl +:+ nl
      +:+ "Resume Content:" +:+ nl
      +:+ resume_content in
  cache_sound w ->
  extracted_texts uploaded_files = t :: rest ->
  generate_content (model_calls w) prompt = Returned answer ->
  fst (generate_text uploaded_files job_description w) = Returned tt
  /\ screen (snd (generate_text uploaded_files job_description w))
     = screen w ++ error_reports uploaded_files
       ++ [st_text_area "Extracted Text" resume_content;
           st_spinner "Generating...";
           st_markdown answer]
  /\ model_calls (snd (generate_text uploaded_files job_description w))
     = model_calls w ++ [prompt].
Proof.
  intros resume_content prompt Hw Ht He. subst prompt resume_content.
  destruct (generate_text_sound Hkey uploaded_files job_description w Hw)
    as (R & _ & _ & S & M).
  rewrite Ht in R, S, M. cbn [analysis_result analysis_output analysis_calls] in R, S, M.
  rewrite paragraphs_join in R, S, M. unfold analysis_prompt in R, S, M.
  rewrite He in R, S. auto.
Qed.

(** The page does not tell a new input from the input of the run before:
    run again with the same input, it records the user's turn again and
    sends a second prompt to the model. *)
Theorem rerun_repeats_the_turn (user_input : string) (w : World) :
  truthy user_input = true ->
  let w1 := snd (virtual_assistant_page user_input w) in
  let w2 := snd (virtual_assistant_page user_input w1) in
  exists first_answer second_answer prompt1 prompt2,
    history w2
    = history w ++ mkEntry "User" user_input :: first_answer
      ++ mkEntry "User" user_input :: second_answer
    /\ model_calls w2 = model_calls w ++ [prompt1; prompt2].
Proof.
  intros Hu w1 w2. subst w1 w2.
  destruct (virtual_assistant_page_run user_input w Hu) as (r1 & w1 & E1 & ->).
  destruct (chatbot_history user_input w) as (a1 & H1 & _).
  destruct (chatbot_sends user_input w) as (r1' & w1' & E1' & _ & M1 & _).
  rewrite E1 in H1, E1'. injection E1' as <- <-. cbn [snd] in *.
  set (v1 := add_elements _ (add_elements _ w1)).
  destruct (virtual_assistant_page_run user_input v1 Hu) as (r2 & w2 & E2 & ->).
  destruct (chatbot_history user_input v1) as (a2 & H2 & _).
  destruct (chatbot_sends user_input v1) as (r2' & w2' & E2' & _ & M2 & _).
  rewrite E2 in H2, E2'. injection E2' as <- <-. cbn [snd] in *.
  eexists a1, a2, _, _. split.
  - change (history (add_elements ?a (add_elements ?b w2))) with (history w2).
    rewrite H2. change (history v1) with (history w1). rewrite H1, <- app_assoc.
    reflexivity.
  - change (model_calls (add_elements ?a (add_elements ?b w2))) with (model_calls w2).
    rewrite M2. change (model_calls v1) with (model_calls w1). rewrite M1, <- app_assoc.
    reflexivity.
Qed.

End Matchify.

(** ** The model on the sample collaborators *)

Abbreviation sample_extract :=
  (extract_text_from_pdf Sample.page Sample.md5_hexdigest Sample.PdfReader
     Sample.page_extract_text Sample.cache_key).

Abbreviation sample_extraction :=
  (extraction Sample.page Sample.md5_hexdigest Sample.PdfReader Sample.page_extract_text).

Abbreviation sample_generate_text :=
  (generate_text Sample.page Sample.md5_hexdigest Sample.PdfReader
     Sample.page_extract_text Sample.cache_key Sample.generate_content).

Abbreviation sample_sound :=
  (cache_sound Sample.page Sample.md5_hexdigest Sample.PdfReader
     Sample.page_extract_text Sample.cache_key).

Lemma strokes_split (a b x y : string) :
  Sample.strokes a +:+ x = Sample.strokes b +:+ y ->
  String.length a = String.length b /\ x = y.
Proof.
  revert b. induction a as [|c a IH]; intros [|d b] H.
  - change (String ":" x = String ":" y) in H. injection H as ->. auto.
  - change (String ":" x = String "|" (Sample.strokes b +:+ y)) in H. discriminate.
  - change (String "|" (Sample.strokes a +:+ x) = String ":" y) in H. discriminate.
  - change (String "|" (Sample.strokes a +:+ x) = String "|" (Sample.strokes b +:+ y)) in H.
    injection H as H. destruct (IH b H) as [Hlen ->]. cbn. auto.
Qed.

Lemma str_app_same_length (a b x y : string) :
  String.length a = String.length b -> a +:+ x = b +:+ y -> x = y.
Proof.
  revert b. induction a as [|c a IH]; intros [|d b] Hlen H; cbn in Hlen; try discriminate.
  - exact H.
  - rewrite !str_app_cons in H. injection H as _ H. injection Hlen as Hlen. eauto.
Qed.

Lemma string_of_list_byte_inj (c1 c2 : list Byte.byte) :
  string_of_list_byte c1 = string_of_list_byte c2 -> c1 = c2.
Proof.
  intros H. rewrite <- (list_byte_of_string_of_list_byte c1), H.
  apply list_byte_of_string_of_list_byte.
Qed.

(** The sample key is faithful. *)
Lemma sample_key_faithful : key_faithful Sample.cache_key.
Proof.
  intros f g H. unfold Sample.cache_key in H.
  apply strokes_split in H as [Hlen H].
  apply (str_app_same_length _ _ _ _ Hlen) in H.
  apply string_of_list_byte_inj. exact H.
Qed.

Lemma sample_fresh_sound : sample_sound fresh.
Proof. apply fresh_sound. Qed.

Abbreviation sample_try :=
  (extract_text_from_pdf_try Sample.page Sample.md5_hexdigest Sample.PdfReader
     Sample.page_extract_text).

(** C1 as stated fails: for the unreadable sample file, from a fresh
    session, the failure is in the store after the first call, and the second
    call returns it without invoking the parser. *)
Lemma retry_after_failure_is_served_from_store :
  let w1 := snd (sample_extract Sample.broken fresh) in
  let w2 := snd (sample_extract Sample.broken w1) in
  Sample.PdfReader (getvalue Sample.broken) = Raised "EOF marker not found"
  /\ fst (sample_extract Sample.broken fresh) = Returned (None, None)
  /\ reader_calls w1 = [getvalue Sample.broken]
  /\ cache w1 !! Sample.cache_key Sample.broken
     = Some ((None, None), [st_error "Error reading PDF: EOF marker not found"])
  /\ fst (sample_extract Sample.broken w1) = Returned (None, None)
  /\ reader_calls w2 = reader_calls w1.
Proof. vm_compute. repeat split. Qed.

(** The unreadable sample file in a fresh session. *)
Lemma failed_extraction_is_stored_witness :
  cache fresh !! Sample.cache_key Sample.broken = None
  /\ fst (sample_try Sample.broken fresh) = Raised "EOF marker not found"
  /\ exists w1,
       sample_extract Sample.broken fresh = (Returned (None, None), w1)
       /\ screen w1 = screen fresh ++ [st_error ("Error reading PDF: " +:+ "EOF marker not found")]
       /\ cache w1 !! Sample.cache_key Sample.broken
          = Some ((None, None), [st_error ("Error reading PDF: " +:+ "EOF marker not found")])
       /\ forall w2,
            cache w2 !! Sample.cache_key Sample.broken
            = cache w1 !! Sample.cache_key Sample.broken ->
            sample_extract Sample.broken w2
            = (Returned (None, None),
               add_elements [st_error ("Error reading PDF: " +:+ "EOF marker not found")] w2)
            /\ reader_calls (snd (sample_extract Sample.broken w2)) = reader_calls w2.
Proof.
  split; [reflexivity|]. split; [reflexivity|].
  exact (failed_extraction_is_stored Sample.page Sample.md5_hexdigest Sample.PdfReader
           Sample.page_extract_text Sample.cache_key Sample.broken fresh
           "EOF marker not found" eq_refl eq_refl).
Defined.

(** C2 on two uploads with the same bytes under different names, from a
    fresh session: the digest of [hash_pdf] is the same for both, yet the
    second call misses the store, which is keyed by the decorator, and the
    parser runs twice. *)
Lemma renamed_copy_is_parsed_again :
  let w1 := snd (sample_extract Sample.resume_a fresh) in
  let w2 := snd (sample_extract Sample.resume_b w1) in
  getvalue Sample.resume_a = getvalue Sample.resume_b
  /\ fst (sample_extract Sample.resume_a fresh) = Returned (Some "Ada", Some "md5:%Ada")
  /\ fst (sample_extract Sample.resume_b w1) = Returned (Some "Ada", Some "md5:%Ada")
  /\ reader_calls w1 = [getvalue Sample.resume_a]
  /\ cache w1 !! Sample.cache_key Sample.resume_b = None
  /\ reader_calls w2 = [getvalue Sample.resume_a; getvalue Sample.resume_b].
Proof. vm_compute. repeat split. Qed.

(** A readable sample file extracted twice in a fresh session. *)
Lemma second_call_same_key_witness :
  cache fresh !! Sample.cache_key Sample.resume_a = None
  /\ Sample.cache_key Sample.resume_a = Sample.cache_key Sample.resume_a
  /\ sample_extract Sample.resume_a (snd (sample_extract Sample.resume_a fresh))
     = (Returned (Some "Ada", Some "md5:%Ada"),
        add_elements [] (snd (sample_extract Sample.resume_a fresh)))
  /\ reader_calls (snd (sample_extract Sample.resume_a
                          (snd (sample_extract Sample.resume_a fresh))))
     = reader_calls (snd (sample_extract Sample.resume_a fresh)).
Proof.
  split; [reflexivity|]. split; [reflexivity|].
  exact (second_call_same_key Sample.page Sample.md5_hexdigest Sample.PdfReader
           Sample.page_extract_text Sample.cache_key Sample.resume_a Sample.resume_a
           fresh eq_refl eq_refl).
Defined.

(** A first chat turn while the model is down. *)
Lemma chatbot_generation_failure_witness :
  Sample.generate_content_down (model_calls fresh)
    (conversation_context (history fresh ++ [mkEntry "User" "hi"]) +:+ nl +:+ "Bot:")
  = Raised "429 quota exceeded"
  /\ exists w',
       chatbot Sample.generate_content_down Sample.str_strip "hi" fresh
       = (Returned "Sorry, I couldn't process that request.", w')
       /\ history w' = history fresh ++ [mkEntry "User" "hi"]
       /\ screen w' = screen fresh ++ [st_spinner "Your virtual assistant is thinking...";
                                       st_error ("Error with chatbot: " +:+ "429 quota exceeded")]
       /\ model_calls w'
          = model_calls fresh
            ++ [conversation_context (history fresh ++ [mkEntry "User" "hi"]) +:+ nl +:+ "Bot:"].
Proof.
  split; [reflexivity|].
  exact (chatbot_generation_failure Sample.generate_content_down Sample.str_strip
           "hi" fresh "429 quota exceeded" eq_refl).
Defined.

(** Five uploads in a fresh session: an unreadable file, a resume, an absent
    entry, a file without text and another resume. *)
Lemma analysis_prompt_holds_texts_in_order_witness :
  key_faithful Sample.cache_key
  /\ sample_sound fresh
  /\ model_calls
       (snd (sample_generate_text
               [Some Sample.broken; Some Sample.resume_a; None; Some Sample.blank;
                Some Sample.resume_c] "JD" fresh))
     = ["Assess candidate fit for the job description. Consider substitutes for skills, experience, match percentage in tabular form:"
          +:+ nl +:+ nl
          +:+ "Skills: Match or equivalent technologies." +:+ nl
          +:+ "Experience: Relevance to key responsibilities." +:+ nl
          +:+ "Fit: Suitability based on experience and skills." +:+ nl +:+ nl
          +:+ "Job Description:" +:+ nl +:+ "JD" +:+ nl +:+ nl
          +:+ "Resume Content:" +:+ nl
          +:+ "Ada" +:+ nl +:+ nl +:+ "Bob" +:+ nl +:+ nl].
Proof.
  split; [exact sample_key_faithful|]. split; [exact sample_fresh_sound|].
  exact (proj1 (analysis_prompt_holds_texts_in_order Sample.page Sample.md5_hexdigest
                  Sample.PdfReader Sample.page_extract_text Sample.cache_key
                  Sample.generate_content sample_key_faithful
                  [Some Sample.broken; Some Sample.resume_a; None; Some Sample.blank;
                   Some Sample.resume_c] "JD" fresh sample_fresh_sound)).
Defined.

(** The unreadable sample file next to a resume, in both orders. *)
Lemma failed_file_does_not_block_the_other_witness :
  key_faithful Sample.cache_key
  /\ sample_sound fresh
  /\ sample_extraction Sample.broken = Raised "EOF marker not found"
  /\ sample_extraction Sample.resume_a = Returned (Some "Ada", Some "md5:%Ada")
  /\ truthy "Ada" = true
  /\ model_calls (snd (sample_generate_text [Some Sample.broken; Some Sample.resume_a] "JD" fresh))
     = model_calls fresh ++ [analysis_prompt "JD" ("Ada" +:+ nl +:+ nl)]
  /\ model_calls (snd (sample_generate_text [Some Sample.resume_a; Some Sample.broken] "JD" fresh))
     = model_calls fresh ++ [analysis_prompt "JD" ("Ada" +:+ nl +:+ nl)].
Proof.
  split; [exact sample_key_faithful|]. split; [exact sample_fresh_sound|].
  split; [reflexivity|]. split; [reflexivity|]. split; [reflexivity|].
  exact (proj1 (failed_file_does_not_block_the_other Sample.page Sample.md5_hexdigest
                  Sample.PdfReader Sample.page_extract_text Sample.cache_key
                  Sample.generate_content sample_key_faithful
                  Sample.broken Sample.resume_a "JD" fresh
                  "EOF marker not found" "Ada" (Some "md5:%Ada")
                  sample_fresh_sound eq_refl eq_refl eq_refl)).
Defined.

Lemma sample_files_give_no_text (f : UploadedFile) :
  Some f ∈ [Some Sample.broken; None; Some Sample.blank] ->
  (exists e, sample_extraction f = Raised e)
  \/ (exists h, sample_extraction f = Returned (Some "", h)).
Proof.
  intros H. apply elem_of_cons in H as [H|H].
  - injection H as ->. left. eexists. reflexivity.
  - apply elem_of_cons in H as [H|H]; [discriminate|].
    apply elem_of_cons in H as [H|H].
    + injection H as ->. right. eexists. reflexivity.
    + apply elem_of_nil in H. destruct H.
Qed.

(** An unreadable file, an absent entry and a file without text. *)
Lemma no_text_no_generation_witness :
  key_faithful Sample.cache_key
  /\ sample_sound fresh
  /\ (forall f, Some f ∈ [Some Sample.broken; None; Some Sample.blank] ->
        (exists e, sample_extraction f = Raised e)
        \/ (exists h, sample_extraction f = Returned (Some "", h)))
  /\ fst (sample_generate_text [Some Sample.broken; None; Some Sample.blank] "JD" fresh)
     = Returned tt
  /\ model_calls (snd (sample_generate_text [Some Sample.broken; None; Some Sample.blank] "JD" fresh))
     = model_calls fresh.
Proof.
  split; [exact sample_key_faithful|]. split; [exact sample_fresh_sound|].
  split; [exact sample_files_give_no_text|].
  pose proof (no_text_no_generation Sample.page Sample.md5_hexdigest
                Sample.PdfReader Sample.page_extract_text Sample.cache_key
                Sample.generate_content sample_key_faithful
                [Some Sample.broken; None; Some Sample.blank] "JD" fresh
                sample_fresh_sound sample_files_give_no_text) as (R & M & _).
  split; [exact R | exact M].
Defined.

(** The state after one Analyze action on the unreadable sample file. *)
Lemma reachable_cache_sound_witness :
  key_faithful Sample.cache_key
  /\ reachable Sample.page Sample.md5_hexdigest Sample.PdfReader Sample.page_extract_text
       Sample.cache_key Sample.generate_content Sample.str_strip
       (snd (sample_generate_text [Some Sample.broken] "JD" fresh))
  /\ sample_sound (snd (sample_generate_text [Some Sample.broken] "JD" fresh)).
Proof.
  split; [exact sample_key_faithful|].
  assert (R : reachable Sample.page Sample.md5_hexdigest Sample.PdfReader
                Sample.page_extract_text Sample.cache_key Sample.generate_content
                Sample.str_strip
                (snd (sample_generate_text [Some Sample.broken] "JD" fresh))).
  { eapply reachable_step; [apply reachable_fresh|].
    exact (step_analyze Sample.page Sample.md5_hexdigest Sample.PdfReader
             Sample.page_extract_text Sample.cache_key Sample.generate_content
             Sample.str_strip true [Some Sample.broken] "JD" fresh). }
  split; [exact R|].
  exact (reachable_cache_sound Sample.page Sample.md5_hexdigest Sample.PdfReader
           Sample.page_extract_text Sample.cache_key Sample.generate_content
           Sample.str_strip sample_key_faithful _ R).
Defined.

(** ** The further properties on the sample collaborators *)

Abbreviation sample_chatbot := (chatbot Sample.generate_content Sample.str_strip).

Abbreviation sample_assistant_page :=
  (virtual_assistant_page Sample.generate_content Sample.str_strip).

Abbreviation sample_page_run :=
  (page_run Sample.page Sample.md5_hexdigest Sample.PdfReader Sample.page_extract_text
     Sample.cache_key Sample.generate_content Sample.str_strip).

Abbreviation sample_visited :=
  (visited Sample.page Sample.md5_hexdigest Sample.PdfReader Sample.page_extract_text
     Sample.cache_key Sample.generate_content Sample.str_strip).

Abbreviation sample_texts :=
  (extracted_texts Sample.page Sample.md5_hexdigest Sample.PdfReader
     Sample.page_extract_text).

(** A first chat turn that the model answers. *)
Lemma chatbot_answer_is_logged_witness :
  Sample.generate_content (model_calls fresh)
    (conversation_context (history fresh ++ [mkEntry "User" "hi"]) +:+ nl +:+ "Bot:")
  = Returned "Hello!"
  /\ fst (sample_chatbot "hi" fresh) = Returned "Hello!"
  /\ history (snd (sample_chatbot "hi" fresh))
     = [mkEntry "User" "hi"; mkEntry "Bot" "Hello!"].
Proof.
  split; [reflexivity|].
  destruct (chatbot_answer_is_logged Sample.generate_content Sample.str_strip
              "hi" fresh "Hello!" eq_refl) as (w' & E & H & _).
  rewrite E. split; [reflexivity|exact H].
Defined.

(** Two answered chat turns. *)
Lemma next_prompt_continues_previous_witness :
  Sample.generate_content (model_calls fresh)
    (conversation_context (history fresh ++ [mkEntry "User" "hi"]) +:+ nl +:+ "Bot:")
  = Returned "Hello!"
  /\ model_calls (snd (sample_chatbot "bye" (snd (sample_chatbot "hi" fresh))))
     = ["User: hi" +:+ nl +:+ "Bot:";
        "User: hi" +:+ nl +:+ "Bot: Hello!" +:+ nl +:+ "User: bye" +:+ nl +:+ "Bot:"].
Proof.
  split; [reflexivity|].
  exact (next_prompt_continues_previous Sample.generate_content Sample.str_strip
           "hi" "bye" fresh "Hello!" eq_refl).
Defined.

Lemma sample_visited_after_chat : sample_visited (snd (sample_assistant_page "hi" fresh)).
Proof.
  eapply visited_run; [apply visited_fresh|].
  exact (run_assistant Sample.page Sample.md5_hexdigest Sample.PdfReader
           Sample.page_extract_text Sample.cache_key Sample.generate_content
           Sample.str_strip "hi" fresh).
Qed.

(** The state after one run of the assistant page. *)
Lemma visited_log_shape_witness :
  sample_visited (snd (sample_assistant_page "hi" fresh))
  /\ turn_shape (history (snd (sample_assistant_page "hi" fresh))).
Proof.
  split; [exact sample_visited_after_chat|].
  exact (visited_log_shape Sample.page Sample.md5_hexdigest Sample.PdfReader
           Sample.page_extract_text Sample.cache_key Sample.generate_content
           Sample.str_strip _ sample_visited_after_chat).
Defined.

(** One run of the assistant page with the input [hi], in a fresh session. *)
Lemma assistant_page_with_input_witness :
  truthy "hi" = true
  /\ screen (snd (sample_assistant_page "hi" fresh))
     = [st_spinner "Your virtual assistant is thinking...";
        st_markdown "Chatbot: Hello!";
        st_markdown "### Conversation History";
        st_markdown (user_bubble "hi");
        st_markdown (bot_bubble "Hello!")].
Proof.
  split; [reflexivity|].
  destruct (assistant_page_with_input Sample.generate_content Sample.str_strip
              "hi" fresh eq_refl) as (r & w1 & w' & E1 & E & _).
  rewrite E. injection E as <-. injection E1 as <- <-. reflexivity.
Defined.

(** Two runs of the assistant page with the same input. *)
Lemma rerun_repeats_the_turn_witness :
  truthy "hi" = true
  /\ exists first_answer second_answer prompt1 prompt2,
       history (snd (sample_assistant_page "hi" (snd (sample_assistant_page "hi" fresh))))
       = history fresh ++ mkEntry "User" "hi" :: first_answer
         ++ mkEntry "User" "hi" :: second_answer
       /\ model_calls (snd (sample_assistant_page "hi"
                              (snd (sample_assistant_page "hi" fresh))))
          = model_calls fresh ++ [prompt1; prompt2].
Proof.
  split; [reflexivity|].
  exact (rerun_repeats_the_turn Sample.generate_content Sample.str_strip
           "hi" fresh eq_refl).
Defined.

Abbreviation sample_analyze :=
  (analyze_button Sample.page Sample.md5_hexdigest Sample.PdfReader
     Sample.page_extract_text Sample.cache_key Sample.generate_content).

(** A session that has analysed one resume, and then analyses another: the
    entry of the first resume is in the store before the second run, and it
    is there, unchanged, after it. *)
Lemma page_run_keeps_store_witness :
  let w0 := snd (sample_analyze true [Some Sample.resume_a] "JD" fresh) in
  let w1 := snd (sample_analyze true [Some Sample.resume_c] "JD" w0) in
  sample_page_run w0 w1
  /\ cache w0 !! Sample.cache_key Sample.resume_a
     = Some ((Some "Ada", Some "md5:%Ada"), [])
  /\ cache w0 !! Sample.cache_key Sample.resume_c = None
  /\ cache w0 ⊆ cache w1
  /\ cache w1 !! Sample.cache_key Sample.resume_a
     = Some ((Some "Ada", Some "md5:%Ada"), [])
  /\ cache w1 !! Sample.cache_key Sample.resume_c
     = Some ((Some "Bob", Some "md5:%Bob"), []).
Proof.
  intros w0 w1.
  assert (R : sample_page_run w0 w1).
  { exact (run_analysis Sample.page Sample.md5_hexdigest Sample.PdfReader
             Sample.page_extract_text Sample.cache_key Sample.generate_content
             Sample.str_strip true [Some Sample.resume_c] "JD" w0). }
  assert (E : cache w0 !! Sample.cache_key Sample.resume_a
              = Some ((Some "Ada", Some "md5:%Ada"), [])).
  { vm_compute. reflexivity. }
  pose proof (page_run_keeps_store Sample.page Sample.md5_hexdigest Sample.PdfReader
                Sample.page_extract_text Sample.cache_key Sample.generate_content
                Sample.str_strip w0 w1 R) as Hsub.
  split; [exact R|]. split; [exact E|].
  split; [vm_compute; reflexivity|]. split; [exact Hsub|].
  split; [exact (lookup_weaken _ _ _ _ E Hsub)|].
  vm_compute. reflexivity.
Defined.

(** The first extraction of a sample resume. *)
Lemma first_extraction_of_readable_file_witness :
  cache fresh !! Sample.cache_key Sample.resume_a = None
  /\ Sample.md5_hexdigest (getvalue Sample.resume_a) = Returned "md5:%Ada"
  /\ Sample.PdfReader (getvalue Sample.resume_a) = Returned ["Ada"]
  /\ Forall2 (fun p t => Sample.page_extract_text p = Returned t) ["Ada"] ["Ada"]
  /\ fst (sample_extract Sample.resume_a fresh) = Returned (Some "Ada", Some "md5:%Ada")
  /\ reader_calls (snd (sample_extract Sample.resume_a fresh)) = [getvalue Sample.resume_a].
Proof.
  assert (P : Forall2 (fun p t => Sample.page_extract_text p = Returned t) ["Ada"] ["Ada"]).
  { repeat constructor. }
  split; [reflexivity|]. split; [reflexivity|]. split; [reflexivity|].
  split; [exact P|].
  destruct (first_extraction_of_readable_file Sample.page Sample.md5_hexdigest
              Sample.PdfReader Sample.page_extract_text Sample.cache_key
              Sample.resume_a fresh "md5:%Ada" ["Ada"] ["Ada"]
              eq_refl eq_refl eq_refl P) as (w' & E & R & _).
  rewrite E. split; [reflexivity|exact R].
Defined.

(** A request on a resume while the model is down. *)
Lemma analysis_model_failure_propagates_witness :
  key_faithful Sample.cache_key
  /\ sample_sound fresh
  /\ sample_texts [Some Sample.resume_a] = ["Ada"]
  /\ Sample.generate_content_down (model_calls fresh)
       (analysis_prompt "JD" (paragraphs ["Ada"])) = Raised "429 quota exceeded"
  /\ fst (generate_text Sample.page Sample.md5_hexdigest Sample.PdfReader
            Sample.page_extract_text Sample.cache_key Sample.generate_content_down
            [Some Sample.resume_a] "JD" fresh)
     = Raised "429 quota exceeded"
  /\ fst (analyze_button Sample.page Sample.md5_hexdigest Sample.PdfReader
            Sample.page_extract_text Sample.cache_key Sample.generate_content_down
            true [Some Sample.resume_a] "JD" fresh)
     = Raised "429 quota exceeded".
Proof.
  split; [exact sample_key_faithful|]. split; [exact sample_fresh_sound|].
  split; [reflexivity|]. split; [reflexivity|].
  destruct (analysis_model_failure_propagates Sample.page Sample.md5_hexdigest
              Sample.PdfReader Sample.page_extract_text Sample.cache_key
              Sample.generate_content_down sample_key_faithful
              [Some Sample.resume_a] "JD" fresh "Ada" [] "429 quota exceeded"
              sample_fresh_sound eq_refl eq_refl) as (R & B & _).
  split; [exact R|exact B].
Defined.

(** A request on a resume that the model answers. *)
Lemma analysis_answer_is_displayed_witness :
  key_faithful Sample.cache_key
  /\ sample_sound fresh
  /\ sample_texts [Some Sample.resume_a] = ["Ada"]
  /\ Sample.generate_content (model_calls fresh)
       ("Assess candidate fit for the job description. Consider substitutes for skills, experience, match percentage in tabular form:"
          +:+ nl +:+ nl
          +:+ "Skills: Match or equivalent technologies." +:+ nl
          +:+ "Experience: Relevance to key responsibilities." +:+ nl
          +:+ "Fit: Suitability based on experience and skills." +:+ nl +:+ nl
          +:+ "Job Description:" +:+ nl +:+ "JD" +:+ nl +:+ nl
          +:+ "Resume Content:" +:+ nl
          +:+ "Ada" +:+ nl +:+ nl) = Returned "Hello!"
  /\ screen (snd (sample_generate_text [Some Sample.resume_a] "JD" fresh))
     = [st_text_area "Extracted Text" ("Ada" +:+ nl +:+ nl);
        st_spinner "Generating...";
        st_markdown "Hello!"]
  /\ model_calls (snd (sample_generate_text [Some Sample.resume_a] "JD" fresh))
     = ["Assess candidate fit for the job description. Consider substitutes for skills, experience, match percentage in tabular form:"
          +:+ nl +:+ nl
          +:+ "Skills: Match or equivalent technologies." +:+ nl
          +:+ "Experience: Relevance to key responsibilities." +:+ nl
          +:+ "Fit: Suitability based on experience and skills." +:+ nl +:+ nl
          +:+ "Job Description:" +:+ nl +:+ "JD" +:+ nl +:+ nl
          +:+ "Resume Content:" +:+ nl
          +:+ "Ada" +:+ nl +:+ nl].
Proof.
  split; [exact sample_key_faithful|]. split; [exact sample_fresh_sound|].
  split; [reflexivity|]. split; [reflexivity|].
  destruct (analysis_answer_is_displayed Sample.page Sample.md5_hexdigest
              Sample.PdfReader Sample.page_extract_text Sample.cache_key
              Sample.generate_content sample_key_faithful
              [Some Sample.resume_a] "JD" fresh "Ada" [] "Hello!"
              sample_fresh_sound eq_refl eq_refl) as (_ & S & M).
  split; [exact S|exact M].
Defined.
